(** * Data proxies and sequence proxies of [ga4gh.vr.extras.dataproxy]

    A shallow embedding of [src/ga4gh/vr/extras/dataproxy.py]: the abstract
    data proxy with its memoized identifier translation, the two SeqRepo
    adapters (local handle and REST service) and the string-like sequence
    proxy, followed by the properties of the specification.

    Python objects are embedded as follows.
    - Values that cross the data-proxy contract (JSON documents, metadata
      dictionaries, aliases) are [pyval]s; a [dict] is an association list
      in insertion order.
    - A Python [str] is the [string] of its UTF-8 bytes: equality, prefixes
      and splitting at [":"] are those of the byte strings, and iterating
      over a string goes by code points ([code_points]).
    - An exception is a value of [exn]; a call that may raise returns a
      [result].
    - A method that talks to a backend is a function in the state-and-error
      monad [M]; the state carries the backend, the trace of calls made
      through the data-proxy contract and the memoization cache. *)

From Stdlib Require Import ZArith List String Ascii Bool Arith Lia.
Import ListNotations.

Local Open Scope string_scope.
Local Open Scope list_scope.

(** ** Python values *)

(** The hashable values that occur in a decoded JSON document: [None],
    integers and strings.  (JSON booleans and fractional numbers are not
    modelled.) *)
Inductive atom : Type :=
| ANone
| AInt (z : Z)
| AStr (s : string).

#[local] Set Warnings "-register-all".
Inductive pyval : Type :=
| PAtom (a : atom)
| PList (l : list pyval)
| PDict (d : list (string * pyval)).

Definition PNone : pyval := PAtom ANone.
Definition PInt (z : Z) : pyval := PAtom (AInt z).
Definition PStr (s : string) : pyval := PAtom (AStr s).

Definition atom_eq_dec (a b : atom) : {a = b} + {a <> b}.
Proof.
  decide equality; [apply Z.eq_dec | apply string_dec].
Defined.

(** ** Exceptions *)

Inductive exn : Type :=
| KeyError (key : string)
| ValueError (msg : string)
| IndexError (msg : string)
| JSONDecodeError (msg : string)        (* a subclass of ValueError *)
| TypeError (msg : string)
| AttributeError (msg : string)
| NotImplementedError (msg : string)
| HTTPError (status : Z)                (* requests.exceptions.HTTPError *)
| ConnectionError (msg : string)        (* requests.exceptions.ConnectionError *)
| OtherError (cls msg : string).        (* any class unrelated to the above *)

(** [except (ValueError, KeyError, IndexError)]: the classes named by the
    handler and their subclasses. *)
Definition is_lookup_failure (e : exn) : bool :=
  match e with
  | ValueError _ | KeyError _ | IndexError _ | JSONDecodeError _ => true
  | _ => false
  end.

(** The error kinds of the specification, and the kind an exception has by
    its class: [KeyError] is NotFound, [ValueError] (with its subclasses) is
    InvalidArgument, [HTTPError] is RemoteError, [NotImplementedError] is
    NotImplemented.  Every other class has no kind. *)
Inductive error_kind : Type :=
| NotFound
| InvalidArgument
| RemoteError (status : Z)
| NotImplemented.

Definition kind_of (e : exn) : option error_kind :=
  match e with
  | KeyError _ => Some NotFound
  | ValueError _ | JSONDecodeError _ => Some InvalidArgument
  | HTTPError status => Some (RemoteError status)
  | NotImplementedError _ => Some NotImplemented
  | _ => None
  end.

Inductive result (A : Type) : Type :=
| Ok (a : A)
| Raise (e : exn).
Arguments Ok {A} a.
Arguments Raise {A} e.

Definition rbind {A B : Type} (r : result A) (k : A -> result B) : result B :=
  match r with
  | Ok a => k a
  | Raise e => Raise e
  end.

(** ** The state-and-error monad *)

Definition M (S A : Type) : Type := S -> result A * S.

Definition ret {S A : Type} (a : A) : M S A := fun s => (Ok a, s).

Definition raise {S A : Type} (e : exn) : M S A := fun s => (Raise e, s).

Definition bind {S A B : Type} (m : M S A) (k : A -> M S B) : M S B :=
  fun s =>
    match m s with
    | (Ok a, s') => k a s'
    | (Raise e, s') => (Raise e, s')
    end.

(** A pure computation that may raise. *)
Definition lift {S A : Type} (r : result A) : M S A := fun s => (r, s).

(** [try: m except <classes selected by handles>: h e] *)
Definition try_except {S A : Type} (m : M S A) (handles : exn -> bool)
           (h : exn -> M S A) : M S A :=
  fun s =>
    match m s with
    | (Ok a, s') => (Ok a, s')
    | (Raise e, s') => if handles e then h e s' else (Raise e, s')
    end.

Declare Scope py_scope.
Delimit Scope py_scope with py.
Notation "x <- m ;; k" := (bind m (fun x => k))
  (at level 61, m at next level, right associativity) : py_scope.
Notation "m ;;; k" := (bind m (fun _ => k))
  (at level 61, right associativity) : py_scope.

(** ** Operations on Python values *)

Fixpoint assoc {V : Type} (key : string) (d : list (string * V)) : option V :=
  match d with
  | [] => None
  | (k, v) :: d' => if String.eqb k key then Some v else assoc key d'
  end.

(** [d[key] = v] on a dict: an existing key keeps its position. *)
Fixpoint assoc_set {V : Type} (key : string) (v : V) (d : list (string * V))
  : list (string * V) :=
  match d with
  | [] => [(key, v)]
  | (k, w) :: d' =>
      if String.eqb k key then (k, v) :: d' else (k, w) :: assoc_set key v d'
  end.

(** [obj[key]] for a string key. *)
Definition getitem (obj : pyval) (key : string) : result pyval :=
  match obj with
  | PDict d =>
      match assoc key d with
      | Some v => Ok v
      | None => Raise (KeyError key)
      end
  | PList _ => Raise (TypeError "list indices must be integers or slices, not str")
  | PAtom (AStr _) => Raise (TypeError "string indices must be integers")
  | PAtom (AInt _) => Raise (TypeError "'int' object is not subscriptable")
  | PAtom ANone => Raise (TypeError "'NoneType' object is not subscriptable")
  end.

(** [obj[key] = v] for a string key. *)
Definition setitem (obj : pyval) (key : string) (v : pyval) : result pyval :=
  match obj with
  | PDict d => Ok (PDict (assoc_set key v d))
  | PList _ => Raise (TypeError "list indices must be integers or slices, not str")
  | PAtom (AStr _) => Raise (TypeError "'str' object does not support item assignment")
  | PAtom (AInt _) => Raise (TypeError "'int' object does not support item assignment")
  | PAtom ANone => Raise (TypeError "'NoneType' object does not support item assignment")
  end.

(** The number of bytes of the UTF-8 sequence that starts with the byte
    [c]: one below 0xC0, two below 0xE0, three below 0xF0, else four. *)
Definition utf8_width (c : ascii) : nat :=
  let n := nat_of_ascii c in
  if Nat.ltb n 192 then 1%nat
  else if Nat.ltb n 224 then 2%nat
  else if Nat.ltb n 240 then 3%nat
  else 4%nat.

(** The code points of a string, each as the string of its bytes: [cur] is
    the code point being read and [need] the number of bytes it still
    lacks. *)
Fixpoint code_points_from (cur : string) (need : nat) (s : string) : list string :=
  match s with
  | EmptyString => [cur]
  | String c s' =>
      match need with
      | O => cur :: code_points_from (String c EmptyString) (utf8_width c - 1) s'
      | S k => code_points_from (String.append cur (String c EmptyString)) k s'
      end
  end.

Definition code_points (s : string) : list string :=
  match s with
  | EmptyString => []
  | String c s' => code_points_from (String c EmptyString) (utf8_width c - 1) s'
  end.

(** The elements produced by iterating over a value: those of a list, the
    code points of a string, the keys of a dict. *)
Definition iterate (obj : pyval) : result (list pyval) :=
  match obj with
  | PList l => Ok l
  | PDict d => Ok (map (fun kv => PStr (fst kv)) d)
  | PAtom (AStr s) => Ok (map PStr (code_points s))
  | PAtom (AInt _) => Raise (TypeError "'int' object is not iterable")
  | PAtom ANone => Raise (TypeError "'NoneType' object is not iterable")
  end.

(** Hashing the elements on their way into a [set]: lists and dicts are
    unhashable. *)
Fixpoint hash_all (l : list pyval) : result (list atom) :=
  match l with
  | [] => Ok []
  | PAtom a :: l' => rbind (hash_all l') (fun t => Ok (a :: t))
  | PList _ :: _ => Raise (TypeError "unhashable type: 'list'")
  | PDict _ :: _ => Raise (TypeError "unhashable type: 'dict'")
  end.

(** [a.startswith(prefix)] *)
Definition startswith (a : atom) (pre : string) : result bool :=
  match a with
  | AStr s => Ok (String.prefix pre s)
  | AInt _ => Raise (AttributeError "'int' object has no attribute 'startswith'")
  | ANone => Raise (AttributeError "'NoneType' object has no attribute 'startswith'")
  end.

(** [[a for a in aliases if a.startswith(pre)]] *)
Fixpoint filter_startswith (pre : string) (aliases : list atom) : result (list atom) :=
  match aliases with
  | [] => Ok []
  | a :: rest =>
      rbind (startswith a pre) (fun b =>
      rbind (filter_startswith pre rest) (fun t =>
      Ok (if b then a :: t else t)))
  end.

(** [s.split(sep, maxsplit)] for a one-character separator. *)
Fixpoint cut (sep : ascii) (s : string) : option (string * string) :=
  match s with
  | EmptyString => None
  | String c s' =>
      if Ascii.eqb c sep then Some (EmptyString, s')
      else match cut sep s' with
           | Some (before, after) => Some (String c before, after)
           | None => None
           end
  end.

Fixpoint split (sep : ascii) (maxsplit : nat) (s : string) : list string :=
  match maxsplit with
  | O => [s]
  | S m =>
      match cut sep s with
      | None => [s]
      | Some (before, after) => before :: split sep m after
      end
  end.

(** [x, y = parts] *)
Definition unpack2 (parts : list string) : result (string * string) :=
  match parts with
  | [x; y] => Ok (x, y)
  | [] => Raise (ValueError "not enough values to unpack (expected 2, got 0)")
  | [_] => Raise (ValueError "not enough values to unpack (expected 2, got 1)")
  | _ => Raise (ValueError "too many values to unpack (expected 2)")
  end.

(** [":" in s] *)
Definition contains_colon (s : string) : bool :=
  match cut ":"%char s with
  | Some _ => true
  | None => false
  end.

(** ** The abstract data proxy, [_DataProxy] *)

Module _DataProxy.

(** The two abstract methods.  [E] is the state of whatever the proxy reads
    from (a SeqRepo handle, a remote service); a method may change it. *)
Record interface (E : Type) : Type := {
  get_metadata : string -> M E pyval;
  get_sequence : string -> option Z -> option Z -> M E string
}.
Arguments get_metadata {E} _ _ _.
Arguments get_sequence {E} _ _ _ _ _.

(** A proxy object: its identity (objects hash and compare by identity) and
    its methods. *)
Record proxy (E : Type) : Type := {
  oid : nat;
  methods : interface E
}.
Arguments oid {E} _.
Arguments methods {E} _.

(** Calls made through the data-proxy contract. *)
Inductive event : Type :=
| EvGetMetadata (self : nat) (identifier : string)
| EvGetSequence (self : nat) (identifier : string) (start end_ : option Z).

(** The ways of calling the bound method [dp.translate_sequence_identifier]:
    which arguments are passed, and which of them by keyword. *)
Inductive arguments : Type :=
| Positional1 (identifier : string)
    (* dp.translate_sequence_identifier(identifier) *)
| Positional (identifier : string) (namespace : option string)
    (* dp.translate_sequence_identifier(identifier, namespace) *)
| PositionalKeyword (identifier : string) (namespace : option string)
    (* dp.translate_sequence_identifier(identifier, namespace=namespace) *)
| Keyword1 (identifier : string)
    (* dp.translate_sequence_identifier(identifier=identifier) *)
| KeywordIN (identifier : string) (namespace : option string)
    (* dp.translate_sequence_identifier(identifier=identifier, namespace=namespace) *)
| KeywordNI (namespace : option string) (identifier : string).
    (* dp.translate_sequence_identifier(namespace=namespace, identifier=identifier) *)

(** The values the parameters [identifier] and [namespace] are bound to;
    [namespace] defaults to [None]. *)
Definition identifier_of (args : arguments) : string :=
  match args with
  | Positional1 i | Positional i _ | PositionalKeyword i _
  | Keyword1 i | KeywordIN i _ | KeywordNI _ i => i
  end.

Definition namespace_of (args : arguments) : option string :=
  match args with
  | Positional1 _ | Keyword1 _ => None
  | Positional _ ns | PositionalKeyword _ ns | KeywordIN _ ns | KeywordNI ns _ => ns
  end.

(** The key [functools.lru_cache] builds for a call: the positional
    arguments, [self] first, followed by the keyword arguments in the order
    they are written.  Two calls have the same key exactly when [self] is
    the same object and the arguments are passed in the same way with equal
    values; [f(i)], [f(i, None)] and [f(i, namespace=None)] have three
    different keys. *)
Definition cache_key : Type := (nat * arguments)%type.

Definition cache_key_eq_dec (k1 k2 : cache_key) : {k1 = k2} + {k1 <> k2}.
Proof.
  repeat decide equality.
Defined.

(** The state of the Python process: the cache of the decorated
    [translate_sequence_identifier] (one cache for the function, shared by
    all proxies; most recently used entry first), the trace of contract
    calls, and the backend. *)
Record process (E : Type) : Type := {
  cache : list (cache_key * list atom);
  trace : list event;
  env : E
}.
Arguments cache {E} _.
Arguments trace {E} _.
Arguments env {E} _.

Definition set_cache {E : Type} (c : list (cache_key * list atom)) (p : process E)
  : process E :=
  {| cache := c; trace := trace p; env := env p |}.

Definition set_env {E : Type} (e : E) (p : process E) : process E :=
  {| cache := cache p; trace := trace p; env := e |}.

(** [self.get_metadata(identifier)], recorded in the trace. *)
Definition call_get_metadata {E : Type} (self : proxy E) (identifier : string)
  : M (process E) pyval :=
  fun p =>
    let (r, e') := get_metadata (methods self) identifier (env p) in
    (r, {| cache := cache p;
           trace := trace p ++ [EvGetMetadata (oid self) identifier];
           env := e' |}).

(** [self.get_sequence(identifier, start, end)], recorded in the trace. *)
Definition call_get_sequence {E : Type} (self : proxy E) (identifier : string)
           (start end_ : option Z) : M (process E) string :=
  fun p =>
    let (r, e') := get_sequence (methods self) identifier start end_ (env p) in
    (r, {| cache := cache p;
           trace := trace p ++ [EvGetSequence (oid self) identifier start end_];
           env := e' |}).

(** *** [functools.lru_cache()] *)

(** The default [maxsize]. *)
Definition maxsize : nat := 128.

Fixpoint cache_get {V : Type} (key : cache_key) (c : list (cache_key * V)) : option V :=
  match c with
  | [] => None
  | (k, v) :: c' => if cache_key_eq_dec k key then Some v else cache_get key c'
  end.

Fixpoint cache_remove {V : Type} (key : cache_key) (c : list (cache_key * V))
  : list (cache_key * V) :=
  match c with
  | [] => []
  | (k, v) :: c' =>
      if cache_key_eq_dec k key then c' else (k, v) :: cache_remove key c'
  end.

(** Storing the result of a miss: nothing to do when the key has appeared
    in the meantime; when the cache is full the least recently used entry
    makes room. *)
Definition cache_store {V : Type} (key : cache_key) (v : V) (c : list (cache_key * V))
  : list (cache_key * V) :=
  match cache_get key c with
  | Some _ => c
  | None =>
      if Nat.leb maxsize (List.length c) then (key, v) :: removelast c
      else (key, v) :: c
  end.

(** The wrapper [lru_cache] puts around a function of the key: a hit moves
    the entry to the most recently used position and returns the stored
    result; a miss runs the function, and stores the result only when the
    function returns. *)
Definition lru_cache {E : Type} (user_function : cache_key -> M (process E) (list atom))
           (key : cache_key) : M (process E) (list atom) :=
  fun p =>
    match cache_get key (cache p) with
    | Some v => (Ok v, set_cache ((key, v) :: cache_remove key (cache p)) p)
    | None =>
        match user_function key p with
        | (Ok v, p') => (Ok v, set_cache (cache_store key v (cache p')) p')
        | (Raise e, p') => (Raise e, p')
        end
    end.

Section Translate.

Context {E : Type}.

(** The order in which CPython enumerates a set depends on the hashes of
    its elements; [set_order] is the list [list(set(l))] yields for the
    elements [l] put into the set. *)
Variable set_order : list atom -> list atom.

(** [list(set(obj))] *)
Definition list_of_set (obj : pyval) : result (list atom) :=
  rbind (iterate obj) (fun elements =>
  rbind (hash_all elements) (fun atoms =>
  Ok (set_order atoms))).

(** The body of [translate_sequence_identifier], lines 80-88. *)
Definition translate_sequence_identifier_body
           (self : proxy E) (identifier : string) (namespace : option string)
  : M (process E) (list atom) :=
  (md <- try_except (call_get_metadata self identifier)
                    is_lookup_failure
                    (fun _ => raise (KeyError identifier)) ;;
   raw <- lift (getitem md "aliases") ;;
   aliases <- lift (list_of_set raw) ;;
   match namespace with
   | Some ns =>
       let nsd := String.append ns ":" in
       lift (filter_startswith nsd aliases)
   | None => ret aliases
   end)%py.

(** [translate_sequence_identifier] as decorated: the wrapper of
    [lru_cache] looks the call up under its key and, on a miss, runs the
    body with the parameters bound. *)
Definition translate_sequence_identifier (self : proxy E) (args : arguments)
  : M (process E) (list atom) :=
  lru_cache
    (fun _ => translate_sequence_identifier_body self (identifier_of args)
                                                 (namespace_of args))
    (oid self, args).

End Translate.

End _DataProxy.

(** ** [_SeqRepoDataProxyBase] *)

Module _SeqRepoDataProxyBase.

Section Base.

Context {E : Type}.

(** The two methods a subclass supplies. *)
Record subclass : Type := {
  _get_metadata : string -> M E pyval;
  _get_sequence : string -> option Z -> option Z -> M E string
}.

Definition get_metadata (self : subclass) (identifier : string) : M E pyval :=
  (md <- _get_metadata self identifier ;;
   old <- lift (getitem md "aliases") ;;
   copied <- lift (iterate old) ;;
   lift (setitem md "aliases" (PList copied)))%py.

Definition get_sequence (self : subclass) (identifier : string)
           (start end_ : option Z) : M E string :=
  _get_sequence self identifier start end_.

(** The subclass seen through the abstract interface. *)
Definition data_proxy (self : subclass) : _DataProxy.interface E :=
  {| _DataProxy.get_metadata := get_metadata self;
     _DataProxy.get_sequence := get_sequence self |}.

End Base.

Arguments subclass E : clear implicits.

End _SeqRepoDataProxyBase.

(** ** [SeqRepoDataProxy]: a local SeqRepo handle *)

Module SeqRepoDataProxy.

(** A row of SeqRepo's alias table, and the sequence information record. *)
Record alias_row : Type := {
  seq_id : string;
  namespace : string;
  alias : string
}.

Record seqinfo : Type := {
  len : Z;
  alpha : string;
  added : string
}.

(** What the handle [sr] answers at a given moment: [sr.fetch], the rows of
    the cursor [sr.aliases.find_aliases(namespace=, alias=)],
    [sr.sequences.fetch_seqinfo] and [sr.aliases.fetch_aliases].  Each may
    raise. *)
Record SeqRepo : Type := {
  fetch : string -> option Z -> option Z -> result string;
  find_aliases : string -> string -> result (list alias_row);
  fetch_seqinfo : string -> result seqinfo;
  fetch_aliases : string -> result (list alias_row)
}.

Section Local.

(** [bioutils.accessions.infer_namespace]: the namespace guessed from the
    shape of an unqualified accession, [None] when no pattern matches; it
    raises when the guess is ambiguous. *)
Variable infer_namespace : string -> result (option string).

(** [isoformat] of [ga4gh.vr.extras.utils]. *)
Variable isoformat : string -> string.

(** Modelled from the spec: [coerce_namespace] of [bioutils.accessions] is
    not part of the sources.  It normalizes a possibly unqualified
    identifier into a namespace-qualified one and fails when the namespace
    is ambiguous or unrecognized; a qualified identifier is returned as it
    is. *)
Definition coerce_namespace (ac : string) : result string :=
  if contains_colon ac then Ok ac
  else
    rbind (infer_namespace ac) (fun ns =>
    match ns with
    | None => Raise (ValueError (String.append "Could not infer namespace for " ac))
    | Some ns => Ok (String.append ns (String.append ":" ac))
    end).

(** [cursor.fetchone()] *)
Definition fetchone {A : Type} (rows : list A) : option A :=
  match rows with
  | [] => None
  | r :: _ => Some r
  end.

Definition _get_sequence (identifier : string) (start end_ : option Z)
  : M SeqRepo string :=
  fun sr => (fetch sr identifier start end_, sr).

Definition _get_metadata (identifier : string) : M SeqRepo pyval :=
  fun sr =>
    (rbind (coerce_namespace identifier) (fun qualified =>
     rbind (unpack2 (split ":"%char 2 qualified)) (fun '(ns, a) =>
     rbind (find_aliases sr ns a) (fun rows =>
     match fetchone rows with
     | None => Raise (KeyError identifier)
     | Some r =>
         rbind (fetch_seqinfo sr (seq_id r)) (fun seqinfo =>
         rbind (fetch_aliases sr (seq_id r)) (fun aliases =>
         Ok (PDict
               [("length", PInt (len seqinfo));
                ("alphabet", PStr (alpha seqinfo));
                ("added", PStr (isoformat (added seqinfo)));
                ("aliases",
                  PList (map (fun a => PStr (String.append (namespace a)
                                              (String.append ":" (alias a))))
                             aliases))])))
     end))),
     sr).

Definition class : _SeqRepoDataProxyBase.subclass SeqRepo :=
  {| _SeqRepoDataProxyBase._get_metadata := _get_metadata;
     _SeqRepoDataProxyBase._get_sequence := _get_sequence |}.

Definition get_metadata : string -> M SeqRepo pyval :=
  _SeqRepoDataProxyBase.get_metadata class.

Definition get_sequence : string -> option Z -> option Z -> M SeqRepo string :=
  _SeqRepoDataProxyBase.get_sequence class.

End Local.

End SeqRepoDataProxy.

(** ** [SeqRepoRESTDataProxy]: a SeqRepo REST service *)

Module SeqRepoRESTDataProxy.

(** What [requests] hands back: the status code, the body text, and what
    [resp.json()] makes of the body (it raises when the body is not JSON). *)
Record Response : Type := {
  status_code : Z;
  text : string;
  json : result pyval
}.

(** What the network answers to [requests.get(url, params=params)] at a
    given moment; a transport failure is an exception. *)
Definition network : Type := string -> list (string * option Z) -> result Response.

Definition requests_get (url : string) (params : list (string * option Z))
  : M network Response :=
  fun net => (net url params, net).

(** [Response.raise_for_status] of the [requests] library: an [HTTPError]
    for the client-error and server-error status codes, 400 to 599. *)
Definition raise_for_status (resp : Response) : result unit :=
  if (400 <=? status_code resp)%Z && (status_code resp <? 600)%Z
  then Raise (HTTPError (status_code resp))
  else Ok tt.

Definition rest_version : string := "1".

Record self_t : Type := { base_url : string }.

Definition __init__ (base_url : string) : self_t :=
  {| base_url := String.append base_url
                   (String.append "/" (String.append rest_version "/")) |}.

Definition _get_sequence (self : self_t) (identifier : string)
           (start end_ : option Z) : M network string :=
  (let url := String.append (base_url self) (String.append "sequence/" identifier) in
   let params := [("start", start); ("end", end_)] in
   resp <- requests_get url params ;;
   if (status_code resp =? 404)%Z then raise (KeyError identifier)
   else
     lift (raise_for_status resp) ;;;
     ret (text resp))%py.

Definition _get_metadata (self : self_t) (identifier : string) : M network pyval :=
  (let url := String.append (base_url self) (String.append "metadata/" identifier) in
   resp <- requests_get url [] ;;
   if (status_code resp =? 404)%Z then raise (KeyError identifier)
   else
     lift (raise_for_status resp) ;;;
     data <- lift (json resp) ;;
     ret data)%py.

Definition class (self : self_t) : _SeqRepoDataProxyBase.subclass network :=
  {| _SeqRepoDataProxyBase._get_metadata := _get_metadata self;
     _SeqRepoDataProxyBase._get_sequence := _get_sequence self |}.

Definition get_metadata (self : self_t) : string -> M network pyval :=
  _SeqRepoDataProxyBase.get_metadata (class self).

Definition get_sequence (self : self_t)
  : string -> option Z -> option Z -> M network string :=
  _SeqRepoDataProxyBase.get_sequence (class self).

End SeqRepoRESTDataProxy.

(** ** [SequenceProxy] *)

Module SequenceProxy.

(** What may stand between the brackets of [sp[...]]: an integer or a slice
    whose parts are integers or [None]. *)
Inductive key_t : Type :=
| KInt (i : Z)
| KSlice (start stop step : option Z).

(** [sys.maxsize] of a 64-bit build. *)
Definition sys_maxsize : Z := 9223372036854775807.

(** What the built-in [len] makes of the value [__len__] returns: it must
    be an integer, not negative, and fit an index. *)
Definition as_length (v : pyval) : result Z :=
  match v with
  | PAtom (AInt z) =>
      if (z <? 0)%Z then Raise (ValueError "__len__() should return >= 0")
      else if (sys_maxsize <? z)%Z
           then Raise (OtherError "OverflowError"
                                  "cannot fit 'int' into an index-sized integer")
           else Ok z
  | PAtom (AStr _) =>
      Raise (TypeError "'str' object cannot be interpreted as an integer")
  | PAtom ANone =>
      Raise (TypeError "'NoneType' object cannot be interpreted as an integer")
  | PList _ =>
      Raise (TypeError "'list' object cannot be interpreted as an integer")
  | PDict _ =>
      Raise (TypeError "'dict' object cannot be interpreted as an integer")
  end.

Section Proxy.

Context {E : Type}.

Record self_t : Type := {
  dp : _DataProxy.proxy E;
  alias : string;
  _md : pyval
}.

Definition __init__ (dp : _DataProxy.proxy E) (alias : string)
  : M (_DataProxy.process E) self_t :=
  (md <- _DataProxy.call_get_metadata dp alias ;;
   ret {| dp := dp; alias := alias; _md := md |})%py.

Definition __str__ (self : self_t) : M (_DataProxy.process E) string :=
  _DataProxy.call_get_sequence (dp self) (alias self) None None.

Definition __len__ (self : self_t) : M (_DataProxy.process E) pyval :=
  lift (getitem (_md self) "length").

(** The built-in [len(self)]: it calls [__len__] and checks what comes
    back. *)
Definition len (self : self_t) : M (_DataProxy.process E) Z :=
  (v <- __len__ self ;;
   lift (as_length v))%py.

Definition __reversed__ (self : self_t) : M (_DataProxy.process E) unit :=
  raise (NotImplementedError
           "Reversed iteration of a SequenceProxy is not implemented").

Definition __getitem__ (self : self_t) (key : key_t)
  : M (_DataProxy.process E) string :=
  let '(start, stop, step) :=
    match key with
    | KInt i => (Some i, Some (i + 1)%Z, None)
    | KSlice start stop step => (start, stop, step)
    end in
  match step with
  | Some _ => raise (ValueError "Only contiguous sequence slices are supported")
  | None => _DataProxy.call_get_sequence (dp self) (alias self) start stop
  end.

End Proxy.

Arguments self_t E : clear implicits.

End SequenceProxy.

Import _DataProxy.

(** ** Auxiliary definitions for the statements *)

(** What [list(set(l))] is known to be, whatever the hash order: an
    enumeration without repetition of the elements of [l]. *)
Definition enumerates_sets (set_order : list atom -> list atom) : Prop :=
  forall l, NoDup (set_order l) /\ (forall a, In a (set_order l) <-> In a l).

(** The aliases that are strings starting with [pre]. *)
Definition has_prefix (pre : string) (a : atom) : bool :=
  match a with
  | AStr s => String.prefix pre s
  | _ => false
  end.

Definition is_str (a : atom) : Prop :=
  match a with
  | AStr _ => True
  | _ => False
  end.

(** What lines 84-88 make of a metadata document. *)
Definition select_aliases (set_order : list atom -> list atom)
           (namespace : option string) (md : pyval) : result (list atom) :=
  rbind (getitem md "aliases") (fun raw =>
  rbind (list_of_set set_order raw) (fun aliases =>
  match namespace with
  | Some ns => filter_startswith (String.append ns ":") aliases
  | None => Ok aliases
  end)).

(** The process after [self.get_metadata(identifier)] has been called. *)
Definition after_metadata_call {E : Type} (self : proxy E) (identifier : string)
           (p : process E) : process E :=
  {| cache := cache p;
     trace := trace p ++ [EvGetMetadata (oid self) identifier];
     env := snd (get_metadata (methods self) identifier (env p)) |}.

(** The entry the cache holds for a call, if it holds one, is what the body
    computes from the backend as it is now. *)
Definition up_to_date {E : Type} (set_order : list atom -> list atom)
           (self : proxy E) (args : arguments) (p : process E) : Prop :=
  forall v,
    cache_get (oid self, args) (cache p) = Some v ->
    fst (translate_sequence_identifier_body set_order self (identifier_of args)
           (namespace_of args) p) = Ok v.

(** A call of [translate_sequence_identifier], and a run of such calls with
    the results dropped. *)
Definition call (E : Type) : Type := (proxy E * arguments)%type.

Fixpoint run_calls {E : Type} (set_order : list atom -> list atom)
         (calls : list (call E)) (p : process E) : process E :=
  match calls with
  | [] => p
  | (self, args) :: rest =>
      run_calls set_order rest
        (snd (translate_sequence_identifier set_order self args p))
  end.

(** The entry of [key] holds [v] and has at most [n] entries in front of
    it. *)
Definition cached_within {V : Type} (n : nat) (key : cache_key) (v : V)
           (c : list (cache_key * V)) : Prop :=
  exists front back,
    c = front ++ (key, v) :: back /\
    (List.length front <= n)%nat /\
    ~ In key (map fst front).

(** How often the trace records [self.get_metadata(identifier)]. *)
Fixpoint metadata_calls (self : nat) (identifier : string) (t : list event) : nat :=
  match t with
  | [] => 0%nat
  | EvGetMetadata o i :: t' =>
      if Nat.eqb o self && String.eqb i identifier
      then S (metadata_calls self identifier t')
      else metadata_calls self identifier t'
  | EvGetSequence _ _ _ _ :: t' => metadata_calls self identifier t'
  end.

(** A 2xx status. *)
Definition is_success (status : Z) : bool :=
  (200 <=? status)%Z && (status <? 300)%Z.

(** ** Concrete backends *)

(** A set order that satisfies [enumerates_sets]. *)
Definition insertion_order : list atom -> list atom := nodup atom_eq_dec.

(** A proxy over a table of metadata documents: identifiers missing from the
    table raise [KeyError]; no sequence is stored. *)
Definition table : Type := list (string * pyval).

Definition table_proxy : proxy table :=
  {| oid := 0;
     methods :=
       {| get_metadata := fun identifier t =>
            (match assoc identifier t with
             | Some md => Ok md
             | None => Raise (KeyError identifier)
             end, t);
          get_sequence := fun identifier _ _ t => (Raise (KeyError identifier), t) |} |}.

Definition vhl_metadata : pyval :=
  PDict [("length", PInt 4560);
         ("aliases", PList [PStr "refseq:NM_000551.3";
                            PStr "ga4gh:SQ.v_QTc1p-MUYdgrRv4LMT6ByXIOsdw3C_";
                            PStr "refseq:NM_000551.3"])].

Definition vhl_table : table := [("NM_000551.3", vhl_metadata)].

(** The table after the sequence has been given another [ga4gh] alias. *)
Definition vhl_table_changed : table :=
  [("NM_000551.3",
    PDict [("length", PInt 4560);
           ("aliases", PList [PStr "refseq:NM_000551.3"; PStr "ga4gh:SQ.changed"])])].

(** A proxy that knows every identifier and gives it no alias. *)
Definition constant_proxy : proxy unit :=
  {| oid := 0;
     methods :=
       {| get_metadata := fun _ u => (Ok (PDict [("aliases", PList [])]), u);
          get_sequence := fun _ _ _ u => (Ok "", u) |} |}.

(** Pairwise distinct identifiers: [n] strokes. *)
Fixpoint strokes (n : nat) : string :=
  match n with
  | O => EmptyString
  | S m => String "i"%char (strokes m)
  end.

Definition stroke_calls (n : nat) : list (call unit) :=
  map (fun j => (constant_proxy, Positional (strokes j) None)) (seq 1 n).

Definition fresh_process {E : Type} (e : E) : process E :=
  {| cache := []; trace := []; env := e |}.

(** Networks that answer every request alike. *)
Definition answering (resp : SeqRepoRESTDataProxy.Response) : SeqRepoRESTDataProxy.network :=
  fun _ _ => Ok resp.

Definition unreachable : SeqRepoRESTDataProxy.network :=
  fun _ _ => Raise (ConnectionError "Connection refused").

Definition localhost : SeqRepoRESTDataProxy.self_t :=
  SeqRepoRESTDataProxy.__init__ "http://localhost:5000/seqrepo".

(** An empty local SeqRepo. *)
Definition empty_seqrepo : SeqRepoDataProxy.SeqRepo :=
  {| SeqRepoDataProxy.fetch := fun identifier _ _ => Raise (KeyError identifier);
     SeqRepoDataProxy.find_aliases := fun _ _ => Ok [];
     SeqRepoDataProxy.fetch_seqinfo := fun seq_id => Raise (KeyError seq_id);
     SeqRepoDataProxy.fetch_aliases := fun _ => Ok [] |}.

(** The answer of the service to [GET sequence/NM_000551.3?start=0&end=10]. *)
Definition vhl_response : SeqRepoRESTDataProxy.Response :=
  {| SeqRepoRESTDataProxy.status_code := 200;
     SeqRepoRESTDataProxy.text := "CCTCGCCTCC";
     SeqRepoRESTDataProxy.json := Raise (JSONDecodeError "Expecting value") |}.

(** A 304 answer, which has no body. *)
Definition not_modified : SeqRepoRESTDataProxy.Response :=
  {| SeqRepoRESTDataProxy.status_code := 304;
     SeqRepoRESTDataProxy.text := "";
     SeqRepoRESTDataProxy.json := Raise (JSONDecodeError "Expecting value") |}.

(** A 500 answer. *)
Definition server_error : SeqRepoRESTDataProxy.Response :=
  {| SeqRepoRESTDataProxy.status_code := 500;
     SeqRepoRESTDataProxy.text := "Internal Server Error";
     SeqRepoRESTDataProxy.json := Raise (JSONDecodeError "Expecting value") |}.

(** The REST adapter for [localhost] as a proxy object. *)
Definition localhost_proxy : proxy SeqRepoRESTDataProxy.network :=
  {| oid := 1;
     methods := _SeqRepoDataProxyBase.data_proxy (SeqRepoRESTDataProxy.class localhost) |}.

(** A sequence proxy for [NM_000551.3] over [table_proxy]. *)
Definition vhl_sequence_proxy : SequenceProxy.self_t table :=
  {| SequenceProxy.dp := table_proxy;
     SequenceProxy.alias := "NM_000551.3";
     SequenceProxy._md := vhl_metadata |}.



(** A 404 answer. *)
Definition not_found_response : SeqRepoRESTDataProxy.Response :=
  {| SeqRepoRESTDataProxy.status_code := 404;
     SeqRepoRESTDataProxy.text := "";
     SeqRepoRESTDataProxy.json := Raise (JSONDecodeError "Expecting value") |}.

(** A sequence proxy for [NM_000551.3] over the REST adapter. *)
Definition vhl_rest_sequence_proxy : SequenceProxy.self_t SeqRepoRESTDataProxy.network :=
  {| SequenceProxy.dp := localhost_proxy;
     SequenceProxy.alias := "NM_000551.3";
     SequenceProxy._md := vhl_metadata |}.

(** ** Where the failures of the adapters come from *)

Section FailureCases.

Variable infer_namespace : string -> result (option string).
Variable sr : SeqRepoDataProxy.SeqRepo.
Variable self : SeqRepoRESTDataProxy.self_t.
Variable net : SeqRepoRESTDataProxy.network.
Variable identifier : string.
Variable e : exn.

Definition sequence_url : string :=
  String.append (SeqRepoRESTDataProxy.base_url self)
                (String.append "sequence/" identifier).

Definition metadata_url : string :=
  String.append (SeqRepoRESTDataProxy.base_url self)
                (String.append "metadata/" identifier).

(** The two translations of the REST adapter: 404 becomes
    [KeyError(identifier)], and [raise_for_status] turns the other status
    codes from 400 to 599 into [HTTPError]. *)
Definition translated_status (resp : SeqRepoRESTDataProxy.Response) : Prop :=
  let status := SeqRepoRESTDataProxy.status_code resp in
  (status = 404%Z /\ e = KeyError identifier)
  \/ (status <> 404%Z /\ (400 <= status < 600)%Z /\ e = HTTPError status).

Definition rest_sequence_failure (start end_ : option Z) : Prop :=
  net sequence_url [("start", start); ("end", end_)] = Raise e
  \/ exists resp,
      net sequence_url [("start", start); ("end", end_)] = Ok resp
      /\ translated_status resp.

(** A decoded document without a usable ["aliases"] entry. *)
Definition wrong_shape (data : pyval) : Prop :=
  getitem data "aliases" = Raise e
  \/ exists old, getitem data "aliases" = Ok old /\ iterate old = Raise e.

(** A status that neither test of the adapter stops. *)
Definition passed_status (resp : SeqRepoRESTDataProxy.Response) : Prop :=
  let status := SeqRepoRESTDataProxy.status_code resp in
  status <> 404%Z /\ ~ (400 <= status < 600)%Z.

Definition rest_metadata_failure : Prop :=
  net metadata_url [] = Raise e
  \/ exists resp,
      net metadata_url [] = Ok resp
      /\ (translated_status resp
          \/ (passed_status resp /\ SeqRepoRESTDataProxy.json resp = Raise e)
          \/ exists data,
              passed_status resp
              /\ SeqRepoRESTDataProxy.json resp = Ok data /\ wrong_shape data).

Definition local_sequence_failure (start end_ : option Z) : Prop :=
  SeqRepoDataProxy.fetch sr identifier start end_ = Raise e.

(** The one translation of the local adapter: no row becomes
    [KeyError(identifier)].  Everything else is what
    [coerce_namespace], the unpacking of the split identifier or the
    SeqRepo handle raised. *)
Definition local_metadata_failure : Prop :=
  SeqRepoDataProxy.coerce_namespace infer_namespace identifier = Raise e
  \/ exists qualified,
      SeqRepoDataProxy.coerce_namespace infer_namespace identifier = Ok qualified
      /\ (unpack2 (split ":"%char 2 qualified) = Raise e
          \/ exists ns a,
              unpack2 (split ":"%char 2 qualified) = Ok (ns, a)
              /\ (SeqRepoDataProxy.find_aliases sr ns a = Raise e
                  \/ (SeqRepoDataProxy.find_aliases sr ns a = Ok []
                      /\ e = KeyError identifier)
                  \/ exists r rows,
                      SeqRepoDataProxy.find_aliases sr ns a = Ok (r :: rows)
                      /\ (SeqRepoDataProxy.fetch_seqinfo sr (SeqRepoDataProxy.seq_id r)
                          = Raise e
                          \/ exists info,
                              SeqRepoDataProxy.fetch_seqinfo sr
                                (SeqRepoDataProxy.seq_id r) = Ok info
                              /\ SeqRepoDataProxy.fetch_aliases sr
                                   (SeqRepoDataProxy.seq_id r) = Raise e))).

End FailureCases.

(** ** Further definitions for the statements about the adapters *)

(** Line 97 as a function of the dictionary: the ["aliases"] entry is read,
    iterated over, and the list of its elements stored back. *)
Definition copy_aliases (md : pyval) : result pyval :=
  rbind (getitem md "aliases") (fun old =>
  rbind (iterate old) (fun copied =>
  setitem md "aliases" (PList copied))).

(** What the two methods of the REST adapter make of the answer of the
    network to their request. *)
Definition sequence_outcome (identifier : string)
           (answer : result SeqRepoRESTDataProxy.Response) : result string :=
  match answer with
  | Raise e => Raise e
  | Ok resp =>
      if (SeqRepoRESTDataProxy.status_code resp =? 404)%Z
      then Raise (KeyError identifier)
      else if (400 <=? SeqRepoRESTDataProxy.status_code resp)%Z
              && (SeqRepoRESTDataProxy.status_code resp <? 600)%Z
           then Raise (HTTPError (SeqRepoRESTDataProxy.status_code resp))
           else Ok (SeqRepoRESTDataProxy.text resp)
  end.

Definition metadata_outcome (identifier : string)
           (answer : result SeqRepoRESTDataProxy.Response) : result pyval :=
  match answer with
  | Raise e => Raise e
  | Ok resp =>
      if (SeqRepoRESTDataProxy.status_code resp =? 404)%Z
      then Raise (KeyError identifier)
      else if (400 <=? SeqRepoRESTDataProxy.status_code resp)%Z
              && (SeqRepoRESTDataProxy.status_code resp <? 600)%Z
           then Raise (HTTPError (SeqRepoRESTDataProxy.status_code resp))
           else rbind (SeqRepoRESTDataProxy.json resp) copy_aliases
  end.

(** A string without [":"]. *)
Definition no_colon (s : string) : Prop := contains_colon s = false.

(** [f"{a['namespace']}:{a['alias']}"] *)
Definition format_alias (r : SeqRepoDataProxy.alias_row) : string :=
  String.append (SeqRepoDataProxy.namespace r)
                (String.append ":" (SeqRepoDataProxy.alias r)).

(** The dictionary the local adapter builds from the sequence information
    and the alias rows. *)
Definition metadata_document (isoformat : string -> string)
           (info : SeqRepoDataProxy.seqinfo)
           (rows : list SeqRepoDataProxy.alias_row) : pyval :=
  PDict [("length", PInt (SeqRepoDataProxy.len info));
         ("alphabet", PStr (SeqRepoDataProxy.alpha info));
         ("added", PStr (isoformat (SeqRepoDataProxy.added info)));
         ("aliases", PList (map (fun r => PStr (format_alias r)) rows))].

(** The handle knows [identifier]: it splits into a namespace and an alias,
    the alias table has a row for them, and the sequence information and the
    aliases of the row's sequence can be fetched. *)
Definition local_record (infer_namespace : string -> result (option string))
           (sr : SeqRepoDataProxy.SeqRepo) (identifier : string)
           (info : SeqRepoDataProxy.seqinfo)
           (rows : list SeqRepoDataProxy.alias_row) : Prop :=
  exists qualified ns a r others,
    SeqRepoDataProxy.coerce_namespace infer_namespace identifier = Ok qualified
    /\ unpack2 (split ":"%char 2 qualified) = Ok (ns, a)
    /\ SeqRepoDataProxy.find_aliases sr ns a = Ok (r :: others)
    /\ SeqRepoDataProxy.fetch_seqinfo sr (SeqRepoDataProxy.seq_id r) = Ok info
    /\ SeqRepoDataProxy.fetch_aliases sr (SeqRepoDataProxy.seq_id r) = Ok rows.

(** The two adapters as proxy objects. *)
Definition local_proxy (o : nat) (infer_namespace : string -> result (option string))
           (isoformat : string -> string) : proxy SeqRepoDataProxy.SeqRepo :=
  {| oid := o;
     methods := _SeqRepoDataProxyBase.data_proxy
                  (SeqRepoDataProxy.class infer_namespace isoformat) |}.

Definition rest_proxy (o : nat) (self : SeqRepoRESTDataProxy.self_t)
  : proxy SeqRepoRESTDataProxy.network :=
  {| oid := o;
     methods := _SeqRepoDataProxyBase.data_proxy (SeqRepoRESTDataProxy.class self) |}.

(** What a client does with a sequence proxy: [sp[key]] or [str(sp)]. *)
Inductive access : Type :=
| Getitem (key : SequenceProxy.key_t)
| Str.

Definition access_run {E : Type} (sp : SequenceProxy.self_t E) (a : access)
  : M (process E) string :=
  match a with
  | Getitem key => SequenceProxy.__getitem__ sp key
  | Str => SequenceProxy.__str__ sp
  end.

(** A series of accesses, whatever each returns. *)
Fixpoint run_accesses {E : Type} (sp : SequenceProxy.self_t E) (l : list access)
         (p : process E) : process E :=
  match l with
  | [] => p
  | a :: rest => run_accesses sp rest (snd (access_run sp a p))
  end.

(** The accesses that are passed on to the data proxy: all but the slices
    with a step. *)
Definition accepted (a : access) : bool :=
  match a with
  | Getitem (SequenceProxy.KSlice _ _ (Some _)) => false
  | _ => true
  end.

(** The range an accepted access asks for. *)
Definition requested_range (a : access) : option Z * option Z :=
  match a with
  | Getitem (SequenceProxy.KInt i) => (Some i, Some (i + 1)%Z)
  | Getitem (SequenceProxy.KSlice start stop _) => (start, stop)
  | Str => (None, None)
  end.

(** The events a series of accesses leaves in the trace. *)
Definition access_events {E : Type} (sp : SequenceProxy.self_t E) (l : list access)
  : list event :=
  map (fun a => EvGetSequence (oid (SequenceProxy.dp sp)) (SequenceProxy.alias sp)
                              (fst (requested_range a)) (snd (requested_range a)))
      (filter accepted l).

(** A local SeqRepo with one sequence under two aliases. *)
Definition vhl_rows : list SeqRepoDataProxy.alias_row :=
  [{| SeqRepoDataProxy.seq_id := "v_QTc1p-MUYdgrRv4LMT6ByXIOsdw3C_";
      SeqRepoDataProxy.namespace := "refseq";
      SeqRepoDataProxy.alias := "NM_000551.3" |};
   {| SeqRepoDataProxy.seq_id := "v_QTc1p-MUYdgrRv4LMT6ByXIOsdw3C_";
      SeqRepoDataProxy.namespace := "ga4gh";
      SeqRepoDataProxy.alias := "SQ.v_QTc1p-MUYdgrRv4LMT6ByXIOsdw3C_" |}].

Definition vhl_seqinfo : SeqRepoDataProxy.seqinfo :=
  {| SeqRepoDataProxy.len := 4560;
     SeqRepoDataProxy.alpha := "ACGT";
     SeqRepoDataProxy.added := "2016-08-24 05:03:11" |}.

Definition vhl_seqrepo : SeqRepoDataProxy.SeqRepo :=
  {| SeqRepoDataProxy.fetch := fun identifier _ _ => Raise (KeyError identifier);
     SeqRepoDataProxy.find_aliases := fun ns a =>
       Ok (filter (fun r => String.eqb (SeqRepoDataProxy.namespace r) ns
                            && String.eqb (SeqRepoDataProxy.alias r) a) vhl_rows);
     SeqRepoDataProxy.fetch_seqinfo := fun _ => Ok vhl_seqinfo;
     SeqRepoDataProxy.fetch_aliases := fun seq_id =>
       Ok (filter (fun r => String.eqb (SeqRepoDataProxy.seq_id r) seq_id) vhl_rows) |}.

(** A 200 answer whose document spells the aliases as one string, and one
    with the metadata of [NM_000551.3]. *)
Definition spelled_response : SeqRepoRESTDataProxy.Response :=
  {| SeqRepoRESTDataProxy.status_code := 200;
     SeqRepoRESTDataProxy.text := "";
     SeqRepoRESTDataProxy.json :=
       Ok (PDict [("aliases", PStr "ab"); ("length", PInt 2)]) |}.

Definition spelled_document : pyval :=
  PDict [("aliases", PList [PStr "a"; PStr "b"]); ("length", PInt 2)].

Definition vhl_metadata_response : SeqRepoRESTDataProxy.Response :=
  {| SeqRepoRESTDataProxy.status_code := 200;
     SeqRepoRESTDataProxy.text := "";
     SeqRepoRESTDataProxy.json := Ok vhl_metadata |}.

(** A namespace guess that puts every unqualified accession into
    [refseq]. *)
Definition always_refseq : string -> result (option string) :=
  fun _ => Ok (Some "refseq").

(** ** The specification's statements that the code does not satisfy *)

(** Every status other than 404 outside the 2xx range makes both fetches of
    the REST adapter fail with [HTTPError] carrying the status. *)
Definition every_non_success_status_raises : Prop :=
  forall (self : SeqRepoRESTDataProxy.self_t) (identifier : string)
         (start end_ : option Z) (resp : SeqRepoRESTDataProxy.Response),
    is_success (SeqRepoRESTDataProxy.status_code resp) = false ->
    SeqRepoRESTDataProxy.status_code resp <> 404%Z ->
    fst (SeqRepoRESTDataProxy._get_sequence self identifier start end_ (answering resp))
      = Raise (HTTPError (SeqRepoRESTDataProxy.status_code resp)) /\
    fst (SeqRepoRESTDataProxy._get_metadata self identifier (answering resp))
      = Raise (HTTPError (SeqRepoRESTDataProxy.status_code resp)).

(** Whatever [get_metadata] or [get_sequence] of the REST adapter raises has
    one of the four error kinds. *)
Definition every_rest_failure_has_a_kind : Prop :=
  forall (self : SeqRepoRESTDataProxy.self_t) (identifier : string)
         (start end_ : option Z) (net : SeqRepoRESTDataProxy.network) (e : exn),
    (fst (SeqRepoRESTDataProxy.get_metadata self identifier net) = Raise e ->
     kind_of e <> None) /\
    (fst (SeqRepoRESTDataProxy.get_sequence self identifier start end_ net) = Raise e ->
     kind_of e <> None).

(** Whatever makes [get_metadata] fail inside
    [translate_sequence_identifier], the translation fails with
    [KeyError(identifier)]. *)
Definition every_lookup_failure_is_not_found : Prop :=
  forall (E : Type) (set_order : list atom -> list atom) (self : proxy E)
         (identifier : string) (namespace : option string)
         (p : process E) (e : exn),
    cache_get (oid self, Positional identifier namespace) (cache p) = None ->
    fst (get_metadata (methods self) identifier (env p)) = Raise e ->
    fst (translate_sequence_identifier set_order self
           (Positional identifier namespace) p)
    = Raise (KeyError identifier).


(** Whatever the state of the process, the translation into a namespace is
    the translation without namespace filtered by the prefix. *)
Definition translation_filters_translation : Prop :=
  forall (E : Type) (set_order : list atom -> list atom) (self : proxy E)
         (identifier ns : string) (p : process E) (all l : list atom),
    enumerates_sets set_order ->
    fst (translate_sequence_identifier set_order self
           (Positional identifier None) p) = Ok all ->
    fst (translate_sequence_identifier set_order self
           (Positional identifier (Some ns)) p) = Ok l ->
    l = filter (has_prefix (String.append ns ":")) all.

(** After a call of [translate_sequence_identifier] that returned, however
    many other calls follow, repeating the call does not reach
    [get_metadata] again. *)
Definition translation_cache_is_unbounded : Prop :=
  forall (E : Type) (set_order : list atom -> list atom) (self : proxy E)
         (identifier : string) (namespace : option string)
         (others : list (call E)) (p : process E) (v : list atom),
    let args := Positional identifier namespace in
    fst (translate_sequence_identifier set_order self args p) = Ok v ->
    let p1 := snd (translate_sequence_identifier set_order self args p) in
    let p2 := run_calls set_order others p1 in
    let p3 := snd (translate_sequence_identifier set_order self args p2) in
    metadata_calls (oid self) identifier (trace p3)
    = metadata_calls (oid self) identifier (trace p2).

(** * Properties *)

Ltac unfold_monad :=
  unfold bind, ret, raise, lift, try_except, rbind in *.

(** ** Sequence proxy *)

Section SequenceProxyProperties.

Context {E : Type}.
Variable sp : SequenceProxy.self_t E.

Lemma getitem_slice (a b : option Z) (p : process E) :
  SequenceProxy.__getitem__ sp (SequenceProxy.KSlice a b None) p
  = call_get_sequence (SequenceProxy.dp sp) (SequenceProxy.alias sp) a b p.
Proof. reflexivity. Qed.

Lemma getitem_index (i : Z) (p : process E) :
  SequenceProxy.__getitem__ sp (SequenceProxy.KInt i) p
  = SequenceProxy.__getitem__ sp
      (SequenceProxy.KSlice (Some i) (Some (i + 1)%Z) None) p.
Proof. reflexivity. Qed.

Lemma getitem_step (a b : option Z) (step : Z) (p : process E) :
  SequenceProxy.__getitem__ sp (SequenceProxy.KSlice a b (Some step)) p
  = (Raise (ValueError "Only contiguous sequence slices are supported"), p).
Proof. reflexivity. Qed.

End SequenceProxyProperties.

(** A call of [get_sequence] through the proxy object is the call of the
    method of the data proxy, recorded in the trace. *)
Lemma call_get_sequence_run (E : Type) (self : proxy E) (identifier : string)
      (start end_ : option Z) (p : process E) :
  call_get_sequence self identifier start end_ p
  = (fst (get_sequence (methods self) identifier start end_ (env p)),
     {| cache := cache p;
        trace := trace p ++ [EvGetSequence (oid self) identifier start end_];
        env := snd (get_sequence (methods self) identifier start end_ (env p)) |}).
Proof.
  unfold call_get_sequence.
  destruct (get_sequence (methods self) identifier start end_ (env p)); reflexivity.
Qed.

(** C7.  For a sequence proxy [sp] bound to a data proxy [dp] and an
    identifier: a slice without step [sp[a:b]] returns what
    [dp.get_sequence(identifier, a, b)] returns on the backend as it is,
    leaves the backend as that call leaves it and adds that one call to the
    trace; an integer index [sp[i]] is the slice [sp[i:i+1]], hence
    [dp.get_sequence(identifier, i, i + 1)]; a slice with a step other than
    one, [sp[a:b:2]] among them, fails with [ValueError] (InvalidArgument)
    without reaching the backend; and [reversed(sp)] fails with
    [NotImplementedError] (NotImplemented). *)
Theorem sequence_proxy_indexing :
  forall (E : Type) (sp : SequenceProxy.self_t E) (p : process E)
         (a b : option Z) (i step : Z),
    step <> 1%Z ->
    let dp := SequenceProxy.dp sp in
    let alias := SequenceProxy.alias sp in
    SequenceProxy.__getitem__ sp (SequenceProxy.KSlice a b None) p
    = (fst (get_sequence (methods dp) alias a b (env p)),
       {| cache := cache p;
          trace := trace p ++ [EvGetSequence (oid dp) alias a b];
          env := snd (get_sequence (methods dp) alias a b (env p)) |})
    /\ SequenceProxy.__getitem__ sp (SequenceProxy.KInt i) p
       = SequenceProxy.__getitem__ sp
           (SequenceProxy.KSlice (Some i) (Some (i + 1)%Z) None) p
    /\ fst (SequenceProxy.__getitem__ sp (SequenceProxy.KInt i) p)
       = fst (get_sequence (methods dp) alias (Some i) (Some (i + 1)%Z) (env p))
    /\ (exists e,
          SequenceProxy.__getitem__ sp (SequenceProxy.KSlice a b (Some step)) p
          = (Raise e, p) /\ kind_of e = Some InvalidArgument)
    /\ (exists e,
          SequenceProxy.__getitem__ sp (SequenceProxy.KSlice a b (Some 2%Z)) p
          = (Raise e, p) /\ kind_of e = Some InvalidArgument)
    /\ (exists e,
          SequenceProxy.__reversed__ sp p = (Raise e, p)
          /\ kind_of e = Some NotImplemented).
Proof.
  intros E sp p a b i step _ dp alias.
  split.
  { rewrite getitem_slice. apply call_get_sequence_run. }
  split; [apply getitem_index|].
  split.
  { rewrite getitem_index, getitem_slice, call_get_sequence_run. reflexivity. }
  split; [eexists; split; [apply getitem_step | reflexivity]|].
  split; [eexists; split; [apply getitem_step | reflexivity]|].
  eexists; split; reflexivity.
Qed.

(** C10.  Every slice that gives a step is rejected with [ValueError]
    (InvalidArgument), the unit step included: [sp[a:b:1]] is rejected
    although [sp[a:b]], the same range, is passed on to [get_sequence]; a
    slice is passed on exactly when its step is [None]. *)
Theorem sequence_proxy_rejects_every_step :
  forall (E : Type) (sp : SequenceProxy.self_t E) (p : process E) (a b : option Z),
    (forall step : Z,
        SequenceProxy.__getitem__ sp (SequenceProxy.KSlice a b (Some step)) p
        = (Raise (ValueError "Only contiguous sequence slices are supported"), p))
    /\ SequenceProxy.__getitem__ sp (SequenceProxy.KSlice a b (Some 1%Z)) p
       = (Raise (ValueError "Only contiguous sequence slices are supported"), p)
    /\ kind_of (ValueError "Only contiguous sequence slices are supported")
       = Some InvalidArgument
    /\ SequenceProxy.__getitem__ sp (SequenceProxy.KSlice a b None) p
       = call_get_sequence (SequenceProxy.dp sp) (SequenceProxy.alias sp) a b p
    /\ (forall step : option Z,
           trace (snd (SequenceProxy.__getitem__ sp (SequenceProxy.KSlice a b step) p))
           = trace p ++ [EvGetSequence (oid (SequenceProxy.dp sp))
                                       (SequenceProxy.alias sp) a b]
           <-> step = None).
Proof.
  intros E sp p a b.
  split; [intro step; apply getitem_step|].
  split; [apply getitem_step|].
  split; [reflexivity|].
  split; [apply getitem_slice|].
  intros [step|]; split; intro H; try reflexivity; try discriminate.
  - rewrite getitem_step in H. simpl in H.
    exfalso. apply (f_equal (@List.length event)) in H.
    rewrite length_app in H. simpl in H. lia.
  - rewrite getitem_slice. unfold call_get_sequence.
    destruct (get_sequence _ _ _ _ _); reflexivity.
Qed.

(** ** REST adapter *)

Lemma rest_get_sequence_response
      (self : SeqRepoRESTDataProxy.self_t) (identifier : string)
      (start end_ : option Z) (net : SeqRepoRESTDataProxy.network)
      (resp : SeqRepoRESTDataProxy.Response) :
  net (sequence_url self identifier) [("start", start); ("end", end_)] = Ok resp ->
  SeqRepoRESTDataProxy._get_sequence self identifier start end_ net
  = (if (SeqRepoRESTDataProxy.status_code resp =? 404)%Z
     then Raise (KeyError identifier)
     else if (400 <=? SeqRepoRESTDataProxy.status_code resp)%Z
             && (SeqRepoRESTDataProxy.status_code resp <? 600)%Z
          then Raise (HTTPError (SeqRepoRESTDataProxy.status_code resp))
          else Ok (SeqRepoRESTDataProxy.text resp),
     net).
Proof.
  intro H.
  unfold SeqRepoRESTDataProxy._get_sequence, SeqRepoRESTDataProxy.requests_get,
    SeqRepoRESTDataProxy.raise_for_status, sequence_url in *.
  unfold_monad. rewrite H.
  destruct (SeqRepoRESTDataProxy.status_code resp =? 404)%Z; [reflexivity|].
  destruct ((400 <=? SeqRepoRESTDataProxy.status_code resp)%Z
            && (SeqRepoRESTDataProxy.status_code resp <? 600)%Z); reflexivity.
Qed.

Lemma rest_get_metadata_response
      (self : SeqRepoRESTDataProxy.self_t) (identifier : string)
      (net : SeqRepoRESTDataProxy.network)
      (resp : SeqRepoRESTDataProxy.Response) :
  net (metadata_url self identifier) [] = Ok resp ->
  SeqRepoRESTDataProxy._get_metadata self identifier net
  = (if (SeqRepoRESTDataProxy.status_code resp =? 404)%Z
     then Raise (KeyError identifier)
     else if (400 <=? SeqRepoRESTDataProxy.status_code resp)%Z
             && (SeqRepoRESTDataProxy.status_code resp <? 600)%Z
          then Raise (HTTPError (SeqRepoRESTDataProxy.status_code resp))
          else SeqRepoRESTDataProxy.json resp,
     net).
Proof.
  intro H.
  unfold SeqRepoRESTDataProxy._get_metadata, SeqRepoRESTDataProxy.requests_get,
    SeqRepoRESTDataProxy.raise_for_status, metadata_url in *.
  unfold_monad. rewrite H.
  destruct (SeqRepoRESTDataProxy.status_code resp =? 404)%Z; [reflexivity|].
  destruct ((400 <=? SeqRepoRESTDataProxy.status_code resp)%Z
            && (SeqRepoRESTDataProxy.status_code resp <? 600)%Z);
    [reflexivity|].
  destruct (SeqRepoRESTDataProxy.json resp); reflexivity.
Qed.

Lemma rest_transport_failure
      (self : SeqRepoRESTDataProxy.self_t) (identifier : string)
      (start end_ : option Z) (net : SeqRepoRESTDataProxy.network) (e : exn) :
  (net (sequence_url self identifier) [("start", start); ("end", end_)] = Raise e ->
   SeqRepoRESTDataProxy._get_sequence self identifier start end_ net = (Raise e, net))
  /\ (net (metadata_url self identifier) [] = Raise e ->
      SeqRepoRESTDataProxy._get_metadata self identifier net = (Raise e, net)).
Proof.
  unfold SeqRepoRESTDataProxy._get_sequence, SeqRepoRESTDataProxy._get_metadata,
    SeqRepoRESTDataProxy.requests_get, sequence_url, metadata_url.
  unfold_monad. split; intro H; rewrite H; reflexivity.
Qed.

(** C5, as the code has it.  When the service answers, both fetches of the
    REST adapter go by the status code: 404 fails with
    [KeyError(identifier)] (NotFound); any other status from 400 to 599
    fails with [HTTPError] carrying that status (RemoteError; 500 gives
    status 500); every remaining status, 200 among them, returns the body
    as it is: the text for the sequence fetch, what [resp.json()] yields
    for the metadata fetch. *)
Theorem rest_fetch_by_status :
  forall (self : SeqRepoRESTDataProxy.self_t) (identifier : string)
         (start end_ : option Z) (net : SeqRepoRESTDataProxy.network)
         (sresp mresp : SeqRepoRESTDataProxy.Response),
    net (sequence_url self identifier) [("start", start); ("end", end_)] = Ok sresp ->
    net (metadata_url self identifier) [] = Ok mresp ->
    let sstatus := SeqRepoRESTDataProxy.status_code sresp in
    let mstatus := SeqRepoRESTDataProxy.status_code mresp in
    SeqRepoRESTDataProxy._get_sequence self identifier start end_ net
    = (if (sstatus =? 404)%Z then Raise (KeyError identifier)
       else if (400 <=? sstatus)%Z && (sstatus <? 600)%Z then Raise (HTTPError sstatus)
            else Ok (SeqRepoRESTDataProxy.text sresp),
       net)
    /\ SeqRepoRESTDataProxy._get_metadata self identifier net
       = (if (mstatus =? 404)%Z then Raise (KeyError identifier)
          else if (400 <=? mstatus)%Z && (mstatus <? 600)%Z then Raise (HTTPError mstatus)
               else SeqRepoRESTDataProxy.json mresp,
          net)
    /\ (sstatus = 500%Z ->
        SeqRepoRESTDataProxy._get_sequence self identifier start end_ net
        = (Raise (HTTPError 500), net))
    /\ (sstatus = 200%Z ->
        SeqRepoRESTDataProxy._get_sequence self identifier start end_ net
        = (Ok (SeqRepoRESTDataProxy.text sresp), net))
    /\ (mstatus = 200%Z ->
        SeqRepoRESTDataProxy._get_metadata self identifier net
        = (SeqRepoRESTDataProxy.json mresp, net)).
Proof.
  intros self identifier start end_ net sresp mresp Hs Hm sstatus mstatus.
  pose proof (rest_get_sequence_response self identifier start end_ net sresp Hs) as Es.
  pose proof (rest_get_metadata_response self identifier net mresp Hm) as Em.
  fold sstatus in Es. fold mstatus in Em.
  repeat split; try assumption.
  - intro H. rewrite Es, H. reflexivity.
  - intro H. rewrite Es, H. reflexivity.
  - intro H. rewrite Em, H. reflexivity.
Qed.

Lemma rest_fetch_by_status_witness :
  SeqRepoRESTDataProxy._get_sequence localhost "NM_000551.3" (Some 0%Z) (Some 10%Z)
    (answering vhl_response)
  = (Ok "CCTCGCCTCC", answering vhl_response).
Proof.
  exact (proj1 (proj2 (proj2 (proj2
           (rest_fetch_by_status localhost "NM_000551.3" (Some 0%Z) (Some 10%Z)
              (answering vhl_response) vhl_response vhl_response eq_refl eq_refl))))
           eq_refl).
Defined.

(** C5, as stated, fails: a 304 answer is not a success status, yet the
    sequence fetch returns its (empty) body instead of raising. *)
Lemma not_modified_is_returned : ~ every_non_success_status_raises.
Proof.
  intro H.
  destruct (H localhost "NM_000551.3" None None not_modified
              eq_refl ltac:(discriminate)) as [Hs _].
  vm_compute in Hs. discriminate Hs.
Qed.

(** ** Failures of the adapters *)

Lemma base_get_metadata_failure
      (E : Type) (self : _SeqRepoDataProxyBase.subclass E) (identifier : string)
      (s s' : E) (e : exn) :
  _SeqRepoDataProxyBase.get_metadata self identifier s = (Raise e, s') ->
  _SeqRepoDataProxyBase._get_metadata self identifier s = (Raise e, s')
  \/ exists data,
      _SeqRepoDataProxyBase._get_metadata self identifier s = (Ok data, s')
      /\ wrong_shape e data.
Proof.
  unfold _SeqRepoDataProxyBase.get_metadata, wrong_shape. unfold_monad.
  destruct (_SeqRepoDataProxyBase._get_metadata self identifier s) as [[data|e0] s0].
  - destruct (getitem data "aliases") as [old|e1] eqn:Hget.
    + destruct (iterate old) as [copied|e2] eqn:Hit.
      * destruct data as [a|l|d]; simpl in *.
        -- destruct a; discriminate.
        -- discriminate.
        -- discriminate.
      * intro H; inversion H; subst. right. exists data. split; [reflexivity|].
        right. exists old. auto.
    + intro H; inversion H; subst. right. exists data. split; [reflexivity|].
      left. assumption.
  - intro H; inversion H; subst. left. reflexivity.
Qed.

(** C9, as stated, fails: when the service cannot be reached,
    [get_metadata] of the REST adapter raises the [ConnectionError] of
    [requests], which is none of the four error kinds. *)
Lemma transport_exception_escapes : ~ every_rest_failure_has_a_kind.
Proof.
  intro H.
  destruct (H localhost "NM_000551.3" None None unreachable
              (ConnectionError "Connection refused")) as [Hm _].
  apply Hm; reflexivity.
Qed.

(** A decoded document that is a JSON array makes [get_metadata] raise
    [TypeError], which has no error kind either. *)
Example json_array_escapes :
  fst (SeqRepoRESTDataProxy.get_metadata localhost "NM_000551.3"
         (answering {| SeqRepoRESTDataProxy.status_code := 200;
                       SeqRepoRESTDataProxy.text := "[]";
                       SeqRepoRESTDataProxy.json := Ok (PList []) |}))
  = Raise (TypeError "list indices must be integers or slices, not str").
Proof. reflexivity. Qed.

(** ** Unknown identifiers *)

(** A 404 answer makes both methods of the REST adapter raise
    [KeyError(identifier)]. *)
Lemma rest_unknown_identifier
      (self : SeqRepoRESTDataProxy.self_t) (identifier : string)
      (start end_ : option Z) (net : SeqRepoRESTDataProxy.network)
      (sresp mresp : SeqRepoRESTDataProxy.Response) :
  net (sequence_url self identifier) [("start", start); ("end", end_)] = Ok sresp ->
  net (metadata_url self identifier) [] = Ok mresp ->
  SeqRepoRESTDataProxy.status_code sresp = 404%Z ->
  SeqRepoRESTDataProxy.status_code mresp = 404%Z ->
  SeqRepoRESTDataProxy.get_sequence self identifier start end_ net
  = (Raise (KeyError identifier), net)
  /\ SeqRepoRESTDataProxy.get_metadata self identifier net
     = (Raise (KeyError identifier), net).
Proof.
  intros Hs Hm Es Em. split.
  - unfold SeqRepoRESTDataProxy.get_sequence, _SeqRepoDataProxyBase.get_sequence.
    simpl. rewrite (rest_get_sequence_response _ _ _ _ _ _ Hs), Es. reflexivity.
  - unfold SeqRepoRESTDataProxy.get_metadata, _SeqRepoDataProxyBase.get_metadata.
    unfold_monad. simpl.
    rewrite (rest_get_metadata_response _ _ _ _ Hm), Em. reflexivity.
Qed.

(** The local adapter raises [KeyError(identifier)] for an identifier of
    the form [namespace:alias] that has no row, and passes on what
    [sr.fetch] raises. *)
Lemma local_unknown_identifier
      (infer_namespace : string -> result (option string))
      (isoformat : string -> string) (sr : SeqRepoDataProxy.SeqRepo)
      (identifier qualified ns a : string) (start end_ : option Z) :
  SeqRepoDataProxy.coerce_namespace infer_namespace identifier = Ok qualified ->
  unpack2 (split ":"%char 2 qualified) = Ok (ns, a) ->
  SeqRepoDataProxy.find_aliases sr ns a = Ok [] ->
  SeqRepoDataProxy.get_metadata infer_namespace isoformat identifier sr
  = (Raise (KeyError identifier), sr)
  /\ SeqRepoDataProxy.get_sequence infer_namespace isoformat identifier start end_ sr
     = (SeqRepoDataProxy.fetch sr identifier start end_, sr).
Proof.
  intros Hc Hu Hf. split; [|reflexivity].
  unfold SeqRepoDataProxy.get_metadata, _SeqRepoDataProxyBase.get_metadata.
  unfold_monad. simpl. unfold SeqRepoDataProxy._get_metadata. unfold_monad.
  simpl in Hu. rewrite Hc; cbv beta iota. rewrite Hu; cbv beta iota.
  rewrite Hf. reflexivity.
Qed.

(** C6 fails on the local adapter.  For the identifier ["a:b:c"], which no
    SeqRepo needs to know, [get_metadata] raises the [ValueError] of
    unpacking the three parts [split(":", 2)] produces; for an unqualified
    identifier whose namespace cannot be inferred, such as ["no-such-id"],
    it raises the [ValueError] of [coerce_namespace].  Neither is the
    [KeyError] the docstring of [get_metadata] promises. *)
Theorem local_get_metadata_value_error :
  forall (infer_namespace : string -> result (option string))
         (isoformat : string -> string) (sr : SeqRepoDataProxy.SeqRepo),
    SeqRepoDataProxy.get_metadata infer_namespace isoformat "a:b:c" sr
    = (Raise (ValueError "too many values to unpack (expected 2)"), sr)
    /\ kind_of (ValueError "too many values to unpack (expected 2)") <> Some NotFound
    /\ SeqRepoDataProxy.get_metadata (fun _ => Ok None) isoformat "no-such-id" sr
       = (Raise (ValueError "Could not infer namespace for no-such-id"), sr).
Proof.
  intros infer_namespace isoformat sr.
  split; [reflexivity|]. split; [discriminate|reflexivity].
Qed.

(** ** Construction and length of a sequence proxy *)




(** ** Identifier translation *)

Section BodyProperties.

Context {E : Type}.
Variable set_order : list atom -> list atom.
Variable self : proxy E.
Variable identifier : string.
Variable namespace : option string.

(** The body calls [get_metadata] once; what it returns is determined by
    the outcome of that call. *)
Lemma body_run (p : process E) :
  translate_sequence_identifier_body set_order self identifier namespace p
  = (match fst (get_metadata (methods self) identifier (env p)) with
     | Ok md => select_aliases set_order namespace md
     | Raise e => Raise (if is_lookup_failure e then KeyError identifier else e)
     end,
     after_metadata_call self identifier p).
Proof.
  unfold translate_sequence_identifier_body, call_get_metadata,
    after_metadata_call, select_aliases.
  unfold_monad.
  destruct (get_metadata (methods self) identifier (env p)) as [[md|e] e']; simpl.
  - destruct (getitem md "aliases") as [raw|e1]; [|reflexivity].
    destruct (list_of_set set_order raw) as [aliases|e2]; [|reflexivity].
    destruct namespace; reflexivity.
  - destruct (is_lookup_failure e); reflexivity.
Qed.

End BodyProperties.

Section TranslateProperties.

Context {E : Type}.
Variable set_order : list atom -> list atom.
Variable self : proxy E.
Variable args : arguments.

Let key : cache_key := (oid self, args).

Lemma translate_hit (p : process E) (v : list atom) :
  cache_get key (cache p) = Some v ->
  translate_sequence_identifier set_order self args p
  = (Ok v, set_cache ((key, v) :: cache_remove key (cache p)) p).
Proof.
  intro H. unfold translate_sequence_identifier, lru_cache.
  fold key. rewrite H. reflexivity.
Qed.

Lemma translate_miss (p : process E) :
  cache_get key (cache p) = None ->
  translate_sequence_identifier set_order self args p
  = match fst (translate_sequence_identifier_body set_order self
                 (identifier_of args) (namespace_of args) p) with
    | Ok v =>
        (Ok v, set_cache (cache_store key v (cache p))
                         (after_metadata_call self (identifier_of args) p))
    | Raise e => (Raise e, after_metadata_call self (identifier_of args) p)
    end.
Proof.
  intro H. unfold translate_sequence_identifier, lru_cache.
  fold key. rewrite H. rewrite body_run. simpl.
  destruct (fst (get_metadata (methods self) (identifier_of args) (env p))) as [md|e].
  - destruct (select_aliases set_order (namespace_of args) md); reflexivity.
  - reflexivity.
Qed.


End TranslateProperties.

(** C2, as the code has it.  On a cache miss
    [translate_sequence_identifier] calls [get_metadata] exactly once, and
    when that call raises [ValueError], [KeyError] or [IndexError]
    (identifier not found, malformed identifier, empty result) the
    translation raises [KeyError(identifier)] and nothing is cached; no
    failure of these three classes leaves the call in another shape.  An
    exception of any other class is not handled and reaches the caller
    unchanged. *)
Theorem translate_normalizes_lookup_failures :
  forall (E : Type) (set_order : list atom -> list atom) (self : proxy E)
         (args : arguments)
         (p : process E) (e : exn),
    cache_get (oid self, args) (cache p) = None ->
    fst (get_metadata (methods self) (identifier_of args) (env p)) = Raise e ->
    trace (snd (translate_sequence_identifier set_order self args p))
    = trace p ++ [EvGetMetadata (oid self) (identifier_of args)]
    /\ cache (snd (translate_sequence_identifier set_order self args p))
       = cache p
    /\ fst (translate_sequence_identifier set_order self args p)
       = Raise (if is_lookup_failure e then KeyError (identifier_of args) else e)
    /\ (is_lookup_failure e = true ->
        fst (translate_sequence_identifier set_order self args p)
        = Raise (KeyError (identifier_of args)))
    /\ (forall e' : exn,
           fst (translate_sequence_identifier set_order self args p)
           = Raise e' ->
           is_lookup_failure e' = true -> e' = KeyError (identifier_of args)).
Proof.
  intros E set_order self args p e Hmiss Hmd.
  rewrite (translate_miss set_order self args p Hmiss).
  rewrite body_run. simpl. rewrite Hmd. simpl.
  repeat split.
  - intro Hl. rewrite Hl. reflexivity.
  - intros e' He' Hl. inversion He' as [He].
    destruct (is_lookup_failure e) eqn:Hle; [reflexivity|].
    subst e'. rewrite Hle in Hl. discriminate Hl.
Qed.

Lemma translate_normalizes_lookup_failures_witness :
  fst (translate_sequence_identifier insertion_order table_proxy
         (Positional "no-such-id" (Some "ga4gh")) (fresh_process vhl_table))
  = Raise (KeyError "no-such-id").
Proof.
  exact (proj1 (proj2 (proj2
           (translate_normalizes_lookup_failures table insertion_order table_proxy
              (Positional "no-such-id" (Some "ga4gh")) (fresh_process vhl_table)
              (KeyError "no-such-id") eq_refl eq_refl)))).
Defined.

(** C2, as stated, fails: when the REST service answers 500,
    [get_metadata] raises [HTTPError], which the handler does not name, and
    the translation raises that [HTTPError] and not a [KeyError]. *)
Lemma remote_error_leaves_translation : ~ every_lookup_failure_is_not_found.
Proof.
  intro H.
  specialize (H SeqRepoRESTDataProxy.network insertion_order localhost_proxy
                "NM_000551.3" None (fresh_process (answering server_error))
                (HTTPError 500) eq_refl eq_refl).
  vm_compute in H. discriminate H.
Qed.



(** The scenario of the specification: the only alias of [NM_000551.3] in
    the [ga4gh] namespace. *)
Example translate_vhl_to_ga4gh :
  fst (translate_sequence_identifier insertion_order table_proxy
         (Positional "NM_000551.3" (Some "ga4gh")) (fresh_process vhl_table))
  = Ok [AStr "ga4gh:SQ.v_QTc1p-MUYdgrRv4LMT6ByXIOsdw3C_"].
Proof. reflexivity. Qed.

(** *** Filtering by namespace *)

Lemma hash_all_In (elements : list pyval) (atoms : list atom) :
  hash_all elements = Ok atoms ->
  forall a, In a atoms <-> In (PAtom a) elements.
Proof.
  revert atoms. induction elements as [|x rest IH]; intros atoms H a; simpl in H.
  - inversion H. simpl. tauto.
  - destruct x as [b|l|d]; try discriminate H.
    unfold rbind in H.
    destruct (hash_all rest) as [t|e]; [|discriminate H].
    inversion H; subst atoms. simpl. rewrite (IH t eq_refl a).
    split; intros [Heq|Hin]; auto.
    + left. congruence.
    + left. congruence.
Qed.

Lemma filter_startswith_Ok (pre : string) (aliases l : list atom) :
  filter_startswith pre aliases = Ok l ->
  l = filter (has_prefix pre) aliases /\ Forall is_str aliases.
Proof.
  revert l. induction aliases as [|a rest IH]; intros l H; simpl in H.
  - inversion H. split; [reflexivity | constructor].
  - unfold rbind in H.
    destruct a as [|z|s]; simpl in H; try discriminate H.
    destruct (filter_startswith pre rest) as [t|e]; [|discriminate H].
    destruct (IH t eq_refl) as [Ht Hstr]. inversion H; subst l. simpl.
    split; [|constructor; [exact I | exact Hstr]].
    destruct (String.prefix pre s); congruence.
Qed.

Lemma filter_startswith_strings (pre : string) (aliases : list atom) :
  Forall is_str aliases ->
  filter_startswith pre aliases = Ok (filter (has_prefix pre) aliases).
Proof.
  induction 1 as [|a rest Ha _ IH]; [reflexivity|].
  destruct a as [|z|s]; try contradiction.
  simpl. unfold rbind. rewrite IH. destruct (String.prefix pre s); reflexivity.
Qed.

(** The two results computed from one metadata document. *)
Lemma select_aliases_filter (set_order : list atom -> list atom) (md : pyval)
      (ns : string) (all : list atom) :
  select_aliases set_order None md = Ok all ->
  (forall l, select_aliases set_order (Some ns) md = Ok l ->
             l = filter (has_prefix (String.append ns ":")) all)
  /\ (Forall is_str all ->
      select_aliases set_order (Some ns) md
      = Ok (filter (has_prefix (String.append ns ":")) all)).
Proof.
  unfold select_aliases, rbind.
  destruct (getitem md "aliases") as [raw|e]; [|discriminate].
  destruct (list_of_set set_order raw) as [aliases|e]; [|discriminate].
  intro H; inversion H; subst all. split.
  - intros l Hl. apply (filter_startswith_Ok _ _ _ Hl).
  - apply filter_startswith_strings.
Qed.

Lemma select_aliases_all (set_order : list atom -> list atom) (md : pyval)
      (all : list atom) :
  enumerates_sets set_order ->
  select_aliases set_order None md = Ok all ->
  NoDup all
  /\ exists elements,
      rbind (getitem md "aliases") iterate = Ok elements
      /\ forall a, In a all <-> In (PAtom a) elements.
Proof.
  intro Hset. unfold select_aliases, list_of_set, rbind.
  destruct (getitem md "aliases") as [raw|e]; [|discriminate].
  destruct (iterate raw) as [elements|e]; [|discriminate].
  destruct (hash_all elements) as [atoms|e] eqn:Hhash; [|discriminate].
  intro H; inversion H; subst all.
  destruct (Hset atoms) as [Hnd Hin]. split; [exact Hnd|].
  exists elements. split; [reflexivity|].
  intro a. rewrite Hin. apply (hash_all_In _ _ Hhash).
Qed.

Lemma insertion_order_enumerates : enumerates_sets insertion_order.
Proof.
  intro l. split.
  - apply NoDup_nodup.
  - intro a. apply nodup_In.
Qed.

(** On a miss the decorated function returns what the body computes. *)
Lemma translate_miss_result
      (E : Type) (set_order : list atom -> list atom) (self : proxy E)
      (args : arguments) (p : process E) :
  cache_get (oid self, args) (cache p) = None ->
  fst (translate_sequence_identifier set_order self args p)
  = match fst (get_metadata (methods self) (identifier_of args) (env p)) with
    | Ok md => select_aliases set_order (namespace_of args) md
    | Raise e => Raise (if is_lookup_failure e then KeyError (identifier_of args) else e)
    end.
Proof.
  intro H. rewrite (translate_miss set_order self args p H).
  rewrite body_run. simpl.
  destruct (fst (get_metadata (methods self) (identifier_of args) (env p)))
    as [md|e]; simpl.
  - destruct (select_aliases set_order (namespace_of args) md); reflexivity.
  - reflexivity.
Qed.

(** When the entry for a call is up to date, the decorated function
    returns what the body computes now, hit or miss. *)
Lemma translate_up_to_date_result
      (E : Type) (set_order : list atom -> list atom) (self : proxy E)
      (args : arguments) (p : process E) :
  up_to_date set_order self args p ->
  fst (translate_sequence_identifier set_order self args p)
  = match fst (get_metadata (methods self) (identifier_of args) (env p)) with
    | Ok md => select_aliases set_order (namespace_of args) md
    | Raise e => Raise (if is_lookup_failure e then KeyError (identifier_of args) else e)
    end.
Proof.
  intro Hup.
  destruct (cache_get (oid self, args) (cache p)) as [v|] eqn:Hget.
  - rewrite (translate_hit set_order self args p v Hget). cbn [fst].
    specialize (Hup v Hget). rewrite body_run in Hup. cbn [fst] in Hup.
    symmetry. exact Hup.
  - apply translate_miss_result. exact Hget.
Qed.

(** C3, as the code has it.  Take a call without namespace and a call with
    namespace [ns] for the same identifier, in a state in which the cache
    entries of the two calls, if there are any, hold what the body computes
    from the backend as it is now (so in particular when neither call is
    answered from the cache), and let the first return [all].  Then [all]
    has no duplicates and holds exactly the elements of the ["aliases"]
    entry of the metadata; whenever the second call returns, it returns
    exactly the elements of [all] that start with [ns + ":"], compared
    character by character, and has no duplicates; and it does return when
    the aliases are strings. *)
Theorem translate_namespace_filter :
  forall (E : Type) (set_order : list atom -> list atom) (self : proxy E)
         (all_args ns_args : arguments) (ns : string) (p : process E)
         (all : list atom),
    enumerates_sets set_order ->
    identifier_of ns_args = identifier_of all_args ->
    namespace_of all_args = None ->
    namespace_of ns_args = Some ns ->
    up_to_date set_order self all_args p ->
    up_to_date set_order self ns_args p ->
    fst (translate_sequence_identifier set_order self all_args p) = Ok all ->
    NoDup all
    /\ (exists md elements,
           fst (get_metadata (methods self) (identifier_of all_args) (env p)) = Ok md
           /\ rbind (getitem md "aliases") iterate = Ok elements
           /\ forall a, In a all <-> In (PAtom a) elements)
    /\ (forall l,
           fst (translate_sequence_identifier set_order self ns_args p) = Ok l ->
           l = filter (has_prefix (String.append ns ":")) all
           /\ NoDup l
           /\ forall a, In a l <-> In a all /\ has_prefix (String.append ns ":") a = true)
    /\ (Forall is_str all ->
        fst (translate_sequence_identifier set_order self ns_args p)
        = Ok (filter (has_prefix (String.append ns ":")) all)).
Proof.
  intros E set_order self all_args ns_args ns p all Hset Hid Hnone Hsome
         Hup_all Hup_ns Hall.
  rewrite (translate_up_to_date_result E set_order self all_args p Hup_all) in Hall.
  rewrite (translate_up_to_date_result E set_order self ns_args p Hup_ns).
  rewrite Hid, Hsome. rewrite Hnone in Hall.
  destruct (fst (get_metadata (methods self) (identifier_of all_args) (env p)))
    as [md|e]; [|discriminate Hall].
  destruct (select_aliases_all set_order md all Hset Hall) as [Hnd [elements [Hel Hin]]].
  destruct (select_aliases_filter set_order md ns all Hall) as [Hsub Hstr].
  split; [exact Hnd|]. split; [|split].
  - exists md, elements. auto.
  - intros l Hl. rewrite (Hsub l Hl).
    split; [reflexivity|]. split; [apply NoDup_filter; exact Hnd|].
    intro a. apply filter_In.
  - exact Hstr.
Qed.

Lemma translate_namespace_filter_witness :
  fst (translate_sequence_identifier insertion_order table_proxy
         (PositionalKeyword "NM_000551.3" (Some "ga4gh"))
         (snd (translate_sequence_identifier insertion_order table_proxy
                 (Positional1 "NM_000551.3") (fresh_process vhl_table))))
  = Ok (filter (has_prefix "ga4gh:")
               [AStr "ga4gh:SQ.v_QTc1p-MUYdgrRv4LMT6ByXIOsdw3C_";
                AStr "refseq:NM_000551.3"]).
Proof.
  refine (proj2 (proj2 (proj2
            (translate_namespace_filter table insertion_order table_proxy
               (Positional1 "NM_000551.3")
               (PositionalKeyword "NM_000551.3" (Some "ga4gh")) "ga4gh"
               (snd (translate_sequence_identifier insertion_order table_proxy
                       (Positional1 "NM_000551.3") (fresh_process vhl_table)))
               [AStr "ga4gh:SQ.v_QTc1p-MUYdgrRv4LMT6ByXIOsdw3C_";
                AStr "refseq:NM_000551.3"]
               insertion_order_enumerates eq_refl eq_refl eq_refl _ _ eq_refl))) _).
  - intros v Hv. vm_compute in Hv. inversion Hv. reflexivity.
  - intros v Hv. vm_compute in Hv. discriminate Hv.
  - repeat constructor.
Defined.

(** C3, as stated, fails.  The translation without namespace is cached;
    the sequence then gets another [ga4gh] alias; the translation into
    [ga4gh] is computed from the new metadata and the one without namespace
    is answered from the cache, so the first is not contained in the
    second. *)
Lemma stale_translation_is_not_filtered : ~ translation_filters_translation.
Proof.
  intro H.
  specialize (H table insertion_order table_proxy "NM_000551.3" "ga4gh"
                (set_env vhl_table_changed
                   (snd (translate_sequence_identifier insertion_order table_proxy
                           (Positional "NM_000551.3" None)
                           (fresh_process vhl_table))))
                [AStr "ga4gh:SQ.v_QTc1p-MUYdgrRv4LMT6ByXIOsdw3C_";
                 AStr "refseq:NM_000551.3"]
                [AStr "ga4gh:SQ.changed"]
                insertion_order_enumerates eq_refl eq_refl).
  vm_compute in H. discriminate H.
Qed.

(** *** The cache *)

Section CacheProperties.

Context {V : Type}.

Lemma cached_within_get (n : nat) (key : cache_key) (v : V)
      (c : list (cache_key * V)) :
  cached_within n key v c -> cache_get key c = Some v.
Proof.
  intros [front [back [Hc [_ Hnot]]]]. subst c.
  induction front as [|[k w] front IH]; simpl.
  - destruct (cache_key_eq_dec key key); [reflexivity | contradiction].
  - destruct (cache_key_eq_dec k key) as [Heq|Hne].
    + exfalso. apply Hnot. left. exact Heq.
    + apply IH. intro Hin. apply Hnot. right. exact Hin.
Qed.

Lemma cached_within_mono (n m : nat) (key : cache_key) (v : V)
      (c : list (cache_key * V)) :
  (n <= m)%nat -> cached_within n key v c -> cached_within m key v c.
Proof.
  intros Hle [front [back [Hc [Hlen Hnot]]]].
  exists front, back. repeat split; [exact Hc | lia | exact Hnot].
Qed.

Lemma cached_within_front (n : nat) (key : cache_key) (v : V)
      (c : list (cache_key * V)) :
  cached_within n key v ((key, v) :: c).
Proof.
  exists [], c. repeat split; simpl; [lia | tauto].
Qed.

Lemma cached_within_cons (n : nat) (key key' : cache_key) (v v' : V)
      (c : list (cache_key * V)) :
  key' <> key ->
  cached_within n key v c -> cached_within (S n) key v ((key', v') :: c).
Proof.
  intros Hne [front [back [Hc [Hlen Hnot]]]]. subst c.
  exists ((key', v') :: front), back. repeat split; simpl; [lia|].
  intros [Heq|Hin]; [exact (Hne Heq) | exact (Hnot Hin)].
Qed.

(** Removing the entry of another key does not push [key] back. *)
Lemma cache_remove_other (n : nat) (key key' : cache_key) (v : V)
      (c : list (cache_key * V)) :
  key' <> key ->
  cached_within n key v c -> cached_within n key v (cache_remove key' c).
Proof.
  intros Hne [front [back [Hc [Hlen Hnot]]]]. subst c.
  revert n Hlen. induction front as [|[k w] front IH]; intros n Hlen; simpl.
  - destruct (cache_key_eq_dec key key') as [Heq|_]; [congruence|].
    exists [], (cache_remove key' back). repeat split; simpl; [lia | tauto].
  - simpl in Hlen, Hnot.
    destruct (cache_key_eq_dec k key') as [_|Hk].
    + exists front, back. repeat split; [lia | tauto].
    + destruct n as [|n]; [lia|].
      apply cached_within_cons.
      * intro Heq. apply Hnot. left. exact Heq.
      * apply IH; [tauto | lia].
Qed.

(** Dropping the last entry keeps [key] as long as an entry follows it. *)
Lemma removelast_keeps (n : nat) (key : cache_key) (v : V)
      (c : list (cache_key * V)) :
  cached_within n key v c -> (S n < List.length c)%nat ->
  cached_within n key v (removelast c).
Proof.
  intros [front [back [Hc [Hlen Hnot]]]] Hlong. subst c.
  rewrite length_app in Hlong. simpl in Hlong.
  destruct back as [|b back]; [simpl in Hlong; lia|].
  exists front, (removelast (b :: back)). repeat split; [|exact Hlen|exact Hnot].
  rewrite removelast_app by discriminate. reflexivity.
Qed.

Lemma cache_store_keeps (n : nat) (key key' : cache_key) (v v' : V)
      (c : list (cache_key * V)) :
  key' <> key -> (S n < maxsize)%nat ->
  cached_within n key v c ->
  cached_within (S n) key v (cache_store key' v' c).
Proof.
  intros Hne Hn Hc. unfold cache_store.
  destruct (cache_get key' c).
  - apply (cached_within_mono n); [lia | exact Hc].
  - destruct (Nat.leb maxsize (List.length c)) eqn:Hfull.
    + apply Nat.leb_le in Hfull.
      apply cached_within_cons; [exact Hne|].
      apply removelast_keeps; [exact Hc | lia].
    + apply cached_within_cons; assumption.
Qed.

Lemma cache_remove_length (key : cache_key) (v : V) (c : list (cache_key * V)) :
  cache_get key c = Some v ->
  S (List.length (cache_remove key c)) = List.length c.
Proof.
  induction c as [|[k w] c IH]; simpl; [discriminate|].
  destruct (cache_key_eq_dec k key); [reflexivity|].
  intro H. simpl. rewrite (IH H). reflexivity.
Qed.

Lemma removelast_length (c : list (cache_key * V)) :
  c <> [] -> S (List.length (removelast c)) = List.length c.
Proof.
  intro H. destruct (exists_last H) as [c' [x Hc]]. subst c.
  rewrite removelast_last, length_app. simpl. lia.
Qed.

Lemma cache_store_bounded (key : cache_key) (v : V) (c : list (cache_key * V)) :
  (List.length c <= maxsize)%nat ->
  (List.length (cache_store key v c) <= maxsize)%nat.
Proof.
  intro H. unfold cache_store.
  destruct (cache_get key c); [exact H|].
  destruct (Nat.leb maxsize (List.length c)) eqn:Hfull; simpl.
  - apply Nat.leb_le in Hfull.
    rewrite removelast_length; [exact H|].
    intro Hnil. subst c. unfold maxsize in Hfull. simpl in Hfull. lia.
  - apply Nat.leb_gt in Hfull. lia.
Qed.

End CacheProperties.

Section CacheOfTranslate.

Context {E : Type}.
Variable set_order : list atom -> list atom.

(** What a call does to the cache. *)
Lemma translate_cache (self : proxy E) (args : arguments) (p : process E) :
  let key := (oid self, args) in
  let p' := snd (translate_sequence_identifier set_order self args p) in
  match cache_get key (cache p) with
  | Some v => cache p' = (key, v) :: cache_remove key (cache p)
  | None =>
      match fst (translate_sequence_identifier set_order self args p) with
      | Ok v => cache p' = cache_store key v (cache p)
      | Raise _ => cache p' = cache p
      end
  end.
Proof.
  intros key p'. subst p'.
  destruct (cache_get key (cache p)) as [v|] eqn:Hget.
  - rewrite (translate_hit set_order self args p v Hget). reflexivity.
  - rewrite (translate_miss set_order self args p Hget).
    destruct (fst (translate_sequence_identifier_body set_order self
                     (identifier_of args) (namespace_of args) p));
      reflexivity.
Qed.

(** A call that returns leaves its entry at the front. *)
Lemma translate_caches_result (self : proxy E) (args : arguments)
      (p : process E) (v : list atom) :
  fst (translate_sequence_identifier set_order self args p) = Ok v ->
  cached_within 0 (oid self, args) v
    (cache (snd (translate_sequence_identifier set_order self args p))).
Proof.
  intro H.
  pose proof (translate_cache self args p) as Hc. simpl in Hc.
  destruct (cache_get (oid self, args) (cache p)) as [w|] eqn:Hget.
  - rewrite (translate_hit set_order self args p w Hget) in H.
    inversion H; subst w. rewrite Hc. apply cached_within_front.
  - rewrite H in Hc. rewrite Hc. unfold cache_store. rewrite Hget.
    destruct (Nat.leb maxsize (List.length (cache p))); apply cached_within_front.
Qed.

(** Any one call pushes an entry back by at most one place. *)
Lemma translate_keeps (n : nat) (key : cache_key) (v : list atom)
      (self : proxy E) (args : arguments)
      (p : process E) :
  (S n < maxsize)%nat ->
  cached_within n key v (cache p) ->
  cached_within (S n) key v
    (cache (snd (translate_sequence_identifier set_order self args p))).
Proof.
  intros Hn Hc.
  pose proof (translate_cache self args p) as Hcache. simpl in Hcache.
  pose proof (cached_within_get n key v (cache p) Hc) as Hkey.
  destruct (cache_key_eq_dec (oid self, args) key) as [Heq|Hne].
  - rewrite Heq in Hcache. rewrite Hkey in Hcache. rewrite Hcache.
    apply cached_within_front.
  - destruct (cache_get (oid self, args) (cache p)) as [w|].
    + rewrite Hcache. apply cached_within_cons; [exact Hne|].
      apply cache_remove_other; assumption.
    + destruct (fst (translate_sequence_identifier set_order self args p));
        rewrite Hcache.
      * apply cache_store_keeps; assumption.
      * apply (cached_within_mono n); [lia | exact Hc].
Qed.

Lemma run_calls_keeps (calls : list (call E)) (n : nat) (key : cache_key)
      (v : list atom) (p : process E) :
  (n + List.length calls < maxsize)%nat ->
  cached_within n key v (cache p) ->
  cached_within (n + List.length calls) key v (cache (run_calls set_order calls p)).
Proof.
  revert n p. induction calls as [|[self args] rest IH];
    intros n p Hn Hc; simpl in *.
  - rewrite Nat.add_0_r. exact Hc.
  - replace (n + S (List.length rest))%nat with (S n + List.length rest)%nat by lia.
    apply IH; [lia|].
    apply translate_keeps; [lia | exact Hc].
Qed.

Lemma translate_bounded (self : proxy E) (args : arguments) (p : process E) :
  (List.length (cache p) <= maxsize)%nat ->
  (List.length
     (cache (snd (translate_sequence_identifier set_order self args p)))
   <= maxsize)%nat.
Proof.
  intro H.
  pose proof (translate_cache self args p) as Hcache. simpl in Hcache.
  destruct (cache_get (oid self, args) (cache p)) as [w|] eqn:Hget.
  - rewrite Hcache. simpl. rewrite (cache_remove_length _ w _ Hget). exact H.
  - destruct (fst (translate_sequence_identifier set_order self args p));
      rewrite Hcache; [apply cache_store_bounded|]; exact H.
Qed.

Lemma run_calls_bounded (calls : list (call E)) (p : process E) :
  (List.length (cache p) <= maxsize)%nat ->
  (List.length (cache (run_calls set_order calls p)) <= maxsize)%nat.
Proof.
  revert p. induction calls as [|[self args] rest IH];
    intros p H; simpl; [exact H|].
  apply IH. apply translate_bounded. exact H.
Qed.

End CacheOfTranslate.

Lemma translate_miss_trace {E : Type} (set_order : list atom -> list atom)
      (self : proxy E) (args : arguments) (p : process E) :
  cache_get (oid self, args) (cache p) = None ->
  trace (snd (translate_sequence_identifier set_order self args p))
  = trace p ++ [EvGetMetadata (oid self) (identifier_of args)].
Proof.
  intro H. rewrite (translate_miss set_order self args p H).
  destruct (fst (translate_sequence_identifier_body set_order self
                   (identifier_of args) (namespace_of args) p));
    reflexivity.
Qed.

Lemma cache_get_singleton_other {V : Type} (key key' : cache_key) (v : V) :
  key <> key' -> cache_get key' [(key, v)] = None.
Proof.
  intro H. simpl. destruct (cache_key_eq_dec key key'); [contradiction | reflexivity].
Qed.

(** C1, as the code has it.  The cache is that of [functools.lru_cache()]
    with its default size: it never holds more than 128 entries, and a full
    cache drops its least recently used entry.  After a call of
    [translate_sequence_identifier] that returned, and with fewer than 128
    other calls since, a call by the same proxy that passes the same
    identifier and namespace in the same way returns the same list without
    calling [get_metadata]: trace and backend are untouched.  The key is
    made of the arguments as they are written, so that a call passing the
    same values in another way ([f(i)], [f(i, None)] and
    [f(i, namespace=None)] are three keys) is not served by that entry:
    right after the first call into an empty cache it calls [get_metadata]
    itself.  No entry expires with time. *)
Theorem translate_cached_within_capacity :
  forall (E : Type) (set_order : list atom -> list atom) (self : proxy E)
         (args : arguments)
         (others : list (call E)) (p : process E) (v : list atom),
    fst (translate_sequence_identifier set_order self args p) = Ok v ->
    (List.length others < maxsize)%nat ->
    let p1 := snd (translate_sequence_identifier set_order self args p) in
    let p2 := run_calls set_order others p1 in
    let p3 := snd (translate_sequence_identifier set_order self args p2) in
    fst (translate_sequence_identifier set_order self args p2) = Ok v
    /\ trace p3 = trace p2
    /\ env p3 = env p2
    /\ ((List.length (cache p) <= maxsize)%nat ->
        (List.length (cache p3) <= maxsize)%nat)
    /\ (forall args' : arguments,
           args' <> args -> cache p = [] ->
           trace (snd (translate_sequence_identifier set_order self args' p1))
           = trace p1 ++ [EvGetMetadata (oid self) (identifier_of args')]).
Proof.
  intros E set_order self args others p v Hok Hlen p1 p2 p3.
  assert (Hhit : cache_get (oid self, args) (cache p2) = Some v).
  { apply (cached_within_get (0 + List.length others)).
    apply run_calls_keeps; [simpl; exact Hlen|].
    apply translate_caches_result. exact Hok. }
  subst p3.
  rewrite (translate_hit set_order self args p2 v Hhit).
  split; [reflexivity|]. split; [reflexivity|]. split; [reflexivity|]. split.
  - intro Hb. simpl.
    rewrite (cache_remove_length _ v _ Hhit).
    apply run_calls_bounded. apply translate_bounded. exact Hb.
  - intros args' Hne Hempty.
    apply translate_miss_trace.
    pose proof (translate_cache set_order self args p) as Hcache.
    simpl in Hcache. rewrite Hempty in Hcache. simpl in Hcache.
    rewrite Hok in Hcache. subst p1. rewrite Hcache.
    unfold cache_store. simpl. apply cache_get_singleton_other.
    intro Heq. apply Hne. inversion Heq. reflexivity.
Qed.

Lemma translate_cached_within_capacity_witness :
  fst (translate_sequence_identifier insertion_order constant_proxy
         (Positional "" None)
         (run_calls insertion_order (stroke_calls 127)
            (snd (translate_sequence_identifier insertion_order constant_proxy
                    (Positional "" None) (fresh_process tt)))))
  = Ok [].
Proof.
  refine (proj1 (translate_cached_within_capacity unit insertion_order constant_proxy
                   (Positional "" None) (stroke_calls 127) (fresh_process tt) []
                   eq_refl _)).
  vm_compute. lia.
Defined.

(** C1, as stated, fails: after 128 calls with other identifiers the entry
    has been dropped, and the repeated call reaches [get_metadata] a second
    time. *)
Lemma translation_cache_evicts : ~ translation_cache_is_unbounded.
Proof.
  intro H.
  specialize (H unit insertion_order constant_proxy "" None (stroke_calls 128)
                (fresh_process tt) [] eq_refl).
  vm_compute in H. discriminate H.
Qed.

Lemma sequence_proxy_indexing_witness :
  fst (SequenceProxy.__getitem__ vhl_rest_sequence_proxy
         (SequenceProxy.KSlice (Some 0%Z) (Some 10%Z) None)
         (fresh_process (answering vhl_response)))
  = Ok "CCTCGCCTCC".
Proof.
  exact (f_equal fst
           (proj1 (sequence_proxy_indexing SeqRepoRESTDataProxy.network
                     vhl_rest_sequence_proxy (fresh_process (answering vhl_response))
                     (Some 0%Z) (Some 10%Z) 0%Z 2%Z ltac:(discriminate)))).
Defined.

(** * Further properties of the code *)

(** ** Dictionaries *)

Lemma assoc_set_same {V : Type} (key : string) (v : V) (d : list (string * V)) :
  assoc key d = Some v -> assoc_set key v d = d.
Proof.
  induction d as [|[k w] d IH]; simpl; [discriminate|].
  destruct (String.eqb k key) eqn:Hk.
  - intro H. inversion H. reflexivity.
  - intro H. rewrite (IH H). reflexivity.
Qed.

Lemma assoc_set_lookup {V : Type} (key : string) (v : V) (d : list (string * V)) :
  assoc key (assoc_set key v d) = Some v.
Proof.
  induction d as [|[k w] d IH]; simpl.
  - rewrite String.eqb_refl. reflexivity.
  - destruct (String.eqb k key) eqn:Hk; simpl; rewrite Hk; [reflexivity | exact IH].
Qed.

Lemma assoc_set_lookup_other {V : Type} (key key' : string) (v : V)
      (d : list (string * V)) :
  key' <> key -> assoc key' (assoc_set key v d) = assoc key' d.
Proof.
  intro Hne. induction d as [|[k w] d IH]; simpl.
  - destruct (String.eqb key key') eqn:Hk; [|reflexivity].
    apply String.eqb_eq in Hk. congruence.
  - destruct (String.eqb k key) eqn:Hk; simpl.
    + apply String.eqb_eq in Hk. subst k.
      destruct (String.eqb key key') eqn:Hk'; [|reflexivity].
      apply String.eqb_eq in Hk'. congruence.
    + rewrite IH. reflexivity.
Qed.

(** ** The pass over the aliases in [_SeqRepoDataProxyBase.get_metadata] *)

(** X1.  When the subclass returns a dictionary whose ["aliases"] entry is
    a list, [get_metadata] returns that dictionary as it is: copying the
    list and storing it back changes neither the entries nor their
    order. *)
Theorem base_get_metadata_keeps_document :
  forall (E : Type) (self : _SeqRepoDataProxyBase.subclass E) (identifier : string)
         (s s' : E) (d : list (string * pyval)) (l : list pyval),
    _SeqRepoDataProxyBase._get_metadata self identifier s = (Ok (PDict d), s') ->
    assoc "aliases" d = Some (PList l) ->
    _SeqRepoDataProxyBase.get_metadata self identifier s = (Ok (PDict d), s').
Proof.
  intros E self identifier s s' d l Hraw Hal.
  unfold _SeqRepoDataProxyBase.get_metadata. unfold_monad.
  rewrite Hraw. simpl. rewrite Hal. simpl.
  rewrite (assoc_set_same _ _ _ Hal). reflexivity.
Qed.

(** A string of two code points, the first of them two bytes long (U+00E9),
    iterates into its two code points. *)
Example code_points_of_two_byte_sequence :
  iterate (PStr (String (ascii_of_nat 195) (String (ascii_of_nat 169) "a")))
  = Ok [PStr (String (ascii_of_nat 195) (String (ascii_of_nat 169) EmptyString));
        PStr "a"].
Proof. reflexivity. Qed.

(** X2.  Whatever [get_metadata] returns is the dictionary of the subclass
    with the ["aliases"] entry replaced by the list of the elements that
    iterating over the old entry yields (the code points of a string, the
    keys of a dictionary, the elements of a list); looking up ["aliases"]
    gives that list and every other key gives what the subclass stored. *)
Theorem base_get_metadata_result :
  forall (E : Type) (self : _SeqRepoDataProxyBase.subclass E) (identifier : string)
         (s s' : E) (md : pyval),
    _SeqRepoDataProxyBase.get_metadata self identifier s = (Ok md, s') ->
    exists d old copied,
      _SeqRepoDataProxyBase._get_metadata self identifier s = (Ok (PDict d), s')
      /\ assoc "aliases" d = Some old
      /\ iterate old = Ok copied
      /\ md = PDict (assoc_set "aliases" (PList copied) d)
      /\ getitem md "aliases" = Ok (PList copied)
      /\ (forall key, key <> "aliases" -> getitem md key = getitem (PDict d) key)
      /\ (forall text, old = PStr text -> copied = map PStr (code_points text))
      /\ (forall keyed, old = PDict keyed ->
                        copied = map (fun kv => PStr (fst kv)) keyed)
      /\ (forall l, old = PList l -> copied = l).
Proof.
  intros E self identifier s s' md.
  unfold _SeqRepoDataProxyBase.get_metadata. unfold_monad.
  destruct (_SeqRepoDataProxyBase._get_metadata self identifier s) as [[raw|e] s0];
    [|discriminate].
  destruct (getitem raw "aliases") as [old|e] eqn:Hget; [|discriminate].
  destruct (iterate old) as [copied|e] eqn:Hit; [|discriminate].
  destruct raw as [a|l|d]; simpl in *;
    [destruct a; discriminate | discriminate |].
  intro H. inversion H; subst.
  destruct (assoc "aliases" d) as [v|] eqn:Hal; [|discriminate].
  inversion Hget; subst v.
  exists d, old, copied.
  split; [reflexivity|]. split; [exact Hal|]. split; [exact Hit|].
  split; [reflexivity|]. split; [|split; [|split; [|split]]].
  - simpl. rewrite assoc_set_lookup. reflexivity.
  - intros key Hne. simpl. rewrite (assoc_set_lookup_other _ _ _ _ Hne). reflexivity.
  - intros text Hold. subst old. simpl in Hit. inversion Hit. reflexivity.
  - intros keyed Hold. subst old. simpl in Hit. inversion Hit. reflexivity.
  - intros l Hold. subst old. simpl in Hit. inversion Hit. reflexivity.
Qed.

Lemma base_get_metadata_result_witness :
  exists d old copied,
    _SeqRepoDataProxyBase._get_metadata (SeqRepoRESTDataProxy.class localhost)
      "NM_000551.3" (answering spelled_response)
    = (Ok (PDict d), answering spelled_response)
    /\ assoc "aliases" d = Some old
    /\ iterate old = Ok copied
    /\ spelled_document = PDict (assoc_set "aliases" (PList copied) d)
    /\ getitem spelled_document "aliases" = Ok (PList copied)
    /\ (forall key, key <> "aliases" ->
                    getitem spelled_document key = getitem (PDict d) key)
    /\ (forall text, old = PStr text -> copied = map PStr (code_points text))
    /\ (forall keyed, old = PDict keyed ->
                      copied = map (fun kv => PStr (fst kv)) keyed)
    /\ (forall l, old = PList l -> copied = l).
Proof.
  exact (base_get_metadata_result SeqRepoRESTDataProxy.network
           (SeqRepoRESTDataProxy.class localhost) "NM_000551.3"
           (answering spelled_response) (answering spelled_response)
           spelled_document eq_refl).
Defined.

Lemma base_get_metadata_keeps_document_witness :
  _SeqRepoDataProxyBase.get_metadata (SeqRepoRESTDataProxy.class localhost)
    "NM_000551.3" (answering vhl_metadata_response)
  = (Ok vhl_metadata, answering vhl_metadata_response).
Proof.
  exact (base_get_metadata_keeps_document SeqRepoRESTDataProxy.network
           (SeqRepoRESTDataProxy.class localhost) "NM_000551.3"
           (answering vhl_metadata_response) (answering vhl_metadata_response)
           [("length", PInt 4560);
            ("aliases", PList [PStr "refseq:NM_000551.3";
                               PStr "ga4gh:SQ.v_QTc1p-MUYdgrRv4LMT6ByXIOsdw3C_";
                               PStr "refseq:NM_000551.3"])]
           [PStr "refseq:NM_000551.3";
            PStr "ga4gh:SQ.v_QTc1p-MUYdgrRv4LMT6ByXIOsdw3C_";
            PStr "refseq:NM_000551.3"]
           eq_refl eq_refl).
Defined.

(** ** Splitting identifiers *)

Lemma cut_append (x y : string) :
  no_colon x ->
  cut ":"%char (String.append x (String.append ":" y)) = Some (x, y).
Proof.
  unfold no_colon, contains_colon.
  induction x as [|c x IH]; intro H; simpl in *.
  - reflexivity.
  - destruct (Ascii.eqb c ":"%char); [discriminate H|].
    destruct (cut ":"%char x) as [[b a]|] eqn:Hcut; [discriminate H|].
    rewrite (IH eq_refl). reflexivity.
Qed.

Lemma cut_no_colon (x : string) : no_colon x -> cut ":"%char x = None.
Proof.
  unfold no_colon, contains_colon.
  destruct (cut ":"%char x) as [[b a]|]; [discriminate | reflexivity].
Qed.

Lemma contains_colon_append (x y : string) :
  no_colon x -> contains_colon (String.append x (String.append ":" y)) = true.
Proof.
  intro H. unfold contains_colon. rewrite (cut_append x y H). reflexivity.
Qed.

(** A qualified identifier with a colon-free alias splits into its two
    parts. *)
Lemma split_qualified (ns a : string) :
  no_colon ns -> no_colon a ->
  unpack2 (split ":"%char 2 (String.append ns (String.append ":" a))) = Ok (ns, a).
Proof.
  intros Hns Ha. cbn [split]. rewrite (cut_append ns a Hns).
  rewrite (cut_no_colon a Ha). reflexivity.
Qed.

Lemma split_three (x y z : string) :
  no_colon x -> no_colon y ->
  split ":"%char 2
        (String.append x (String.append ":" (String.append y (String.append ":" z))))
  = [x; y; z].
Proof.
  intros Hx Hy. cbn [split]. rewrite (cut_append x _ Hx). rewrite (cut_append y z Hy).
  reflexivity.
Qed.

(** ** Matching the namespace of an alias *)

Lemma no_colon_cons (c : ascii) (s : string) :
  no_colon (String c s) -> c <> ":"%char /\ no_colon s.
Proof.
  unfold no_colon, contains_colon. simpl.
  destruct (Ascii.eqb c ":"%char) eqn:Hc; [discriminate|].
  intro H. split.
  - intro Heq. subst c. discriminate Hc.
  - destruct (cut ":"%char s) as [[b a]|]; [discriminate H | reflexivity].
Qed.

Lemma prefix_empty (s : string) : String.prefix EmptyString s = true.
Proof. destruct s; reflexivity. Qed.

Lemma prefix_namespace (ns n r : string) :
  no_colon ns -> no_colon n ->
  String.prefix (String.append ns ":") (String.append n (String.append ":" r))
  = String.eqb n ns.
Proof.
  revert n. induction ns as [|a ns IH]; intros n Hns Hn.
  - destruct n as [|c n]; cbn [String.append String.prefix String.eqb].
    + destruct (ascii_dec ":"%char ":"%char) as [_|Hne]; [|congruence].
      apply prefix_empty.
    + destruct (no_colon_cons c n Hn) as [Hc _].
      destruct (ascii_dec ":"%char c) as [Heq|_]; [congruence | reflexivity].
  - destruct (no_colon_cons a ns Hns) as [Ha Hns'].
    destruct n as [|c n]; cbn [String.append String.prefix String.eqb].
    + destruct (ascii_dec a ":"%char) as [Heq|_]; [congruence | reflexivity].
    + destruct (no_colon_cons c n Hn) as [_ Hn'].
      destruct (ascii_dec a c) as [Heq|Hne].
      * subst c. rewrite Ascii.eqb_refl. apply IH; assumption.
      * destruct (Ascii.eqb c a) eqn:Hca; [|reflexivity].
        apply Ascii.eqb_eq in Hca. congruence.
Qed.

(** X3.  The test [a.startswith(namespace + ":")] selects an alias
    [n:r] exactly when its namespace [n] is the one asked for: with
    colon-free namespaces, a namespace that is only a prefix of [n] (or of
    which [n] is a prefix) does not match. *)
Theorem startswith_selects_namespace :
  forall ns n r : string,
    no_colon ns -> no_colon n ->
    startswith (AStr (String.append n (String.append ":" r))) (String.append ns ":")
    = Ok (String.eqb n ns).
Proof.
  intros ns n r Hns Hn. unfold startswith.
  rewrite (prefix_namespace ns n r Hns Hn). reflexivity.
Qed.

Lemma startswith_selects_namespace_witness :
  startswith (AStr "refseq:NM_000551.3") "ref:" = Ok false.
Proof.
  exact (startswith_selects_namespace "ref" "refseq" "NM_000551.3" eq_refl eq_refl).
Defined.

(** ** The local adapter *)

Section LocalAdapter.

Variable infer_namespace : string -> result (option string).
Variable isoformat : string -> string.
Variable sr : SeqRepoDataProxy.SeqRepo.

Lemma local_raw_found (identifier : string) (info : SeqRepoDataProxy.seqinfo)
      (rows : list SeqRepoDataProxy.alias_row) :
  local_record infer_namespace sr identifier info rows ->
  SeqRepoDataProxy._get_metadata infer_namespace isoformat identifier sr
  = (Ok (metadata_document isoformat info rows), sr).
Proof.
  intros [qualified [ns [a [r [others [Hc [Hu [Hf [Hi Hr]]]]]]]]].
  unfold SeqRepoDataProxy._get_metadata, rbind.
  rewrite Hc, Hu, Hf. cbn [SeqRepoDataProxy.fetchone]. rewrite Hi, Hr.
  reflexivity.
Qed.

Lemma local_raw_inv (identifier : string) (md : pyval) :
  fst (SeqRepoDataProxy._get_metadata infer_namespace isoformat identifier sr) = Ok md ->
  exists info rows,
    local_record infer_namespace sr identifier info rows
    /\ md = metadata_document isoformat info rows.
Proof.
  unfold SeqRepoDataProxy._get_metadata, rbind, local_record. cbn [fst].
  destruct (SeqRepoDataProxy.coerce_namespace infer_namespace identifier)
    as [qualified|e] eqn:Hc; [|discriminate].
  destruct (unpack2 (split ":"%char 2 qualified)) as [[ns a]|e] eqn:Hu; [|discriminate].
  destruct (SeqRepoDataProxy.find_aliases sr ns a) as [[|r others]|e] eqn:Hf;
    cbn [SeqRepoDataProxy.fetchone]; try discriminate.
  destruct (SeqRepoDataProxy.fetch_seqinfo sr (SeqRepoDataProxy.seq_id r))
    as [info|e] eqn:Hi; [|discriminate].
  destruct (SeqRepoDataProxy.fetch_aliases sr (SeqRepoDataProxy.seq_id r))
    as [rows|e] eqn:Hr; [|discriminate].
  intro H. inversion H.
  exists info, rows. split; [|reflexivity].
  exists qualified, ns, a, r, others. auto.
Qed.

(** The pass of the base class leaves the document of the local adapter as
    it is. *)
Lemma local_get_metadata_raw (identifier : string) :
  fst (SeqRepoDataProxy.get_metadata infer_namespace isoformat identifier sr)
  = fst (SeqRepoDataProxy._get_metadata infer_namespace isoformat identifier sr)
  /\ snd (SeqRepoDataProxy.get_metadata infer_namespace isoformat identifier sr) = sr.
Proof.
  unfold SeqRepoDataProxy.get_metadata, _SeqRepoDataProxyBase.get_metadata.
  unfold bind, lift. cbn [_SeqRepoDataProxyBase._get_metadata SeqRepoDataProxy.class].
  destruct (SeqRepoDataProxy._get_metadata infer_namespace isoformat identifier sr)
    as [[md|e] s'] eqn:Hraw.
  - assert (Hs : s' = sr).
    { unfold SeqRepoDataProxy._get_metadata in Hraw. inversion Hraw. reflexivity. }
    destruct (local_raw_inv identifier md) as [info [rows [_ Hmd]]].
    { rewrite Hraw. reflexivity. }
    subst md s'. split; reflexivity.
  - split; [reflexivity|].
    unfold SeqRepoDataProxy._get_metadata in Hraw. inversion Hraw. reflexivity.
Qed.

Lemma local_found (identifier : string) (info : SeqRepoDataProxy.seqinfo)
      (rows : list SeqRepoDataProxy.alias_row) :
  local_record infer_namespace sr identifier info rows ->
  SeqRepoDataProxy.get_metadata infer_namespace isoformat identifier sr
  = (Ok (metadata_document isoformat info rows), sr).
Proof.
  intro H. destruct (local_get_metadata_raw identifier) as [Hfst Hsnd].
  rewrite (local_raw_found identifier info rows H) in Hfst. simpl in Hfst.
  destruct (SeqRepoDataProxy.get_metadata infer_namespace isoformat identifier sr)
    as [res s']. simpl in *. subst. reflexivity.
Qed.

Lemma coerce_qualified (ns a : string) :
  no_colon ns ->
  SeqRepoDataProxy.coerce_namespace infer_namespace
    (String.append ns (String.append ":" a))
  = Ok (String.append ns (String.append ":" a)).
Proof.
  intro H. unfold SeqRepoDataProxy.coerce_namespace.
  rewrite (contains_colon_append ns a H). reflexivity.
Qed.

Lemma coerce_unqualified (identifier ns : string) :
  no_colon identifier ->
  infer_namespace identifier = Ok (Some ns) ->
  SeqRepoDataProxy.coerce_namespace infer_namespace identifier
  = Ok (String.append ns (String.append ":" identifier)).
Proof.
  intros Hid Hinf. unfold SeqRepoDataProxy.coerce_namespace.
  unfold no_colon in Hid. rewrite Hid. unfold rbind. rewrite Hinf. reflexivity.
Qed.

Lemma local_record_unqualified (identifier ns : string)
      (info : SeqRepoDataProxy.seqinfo) (rows : list SeqRepoDataProxy.alias_row) :
  no_colon identifier -> no_colon ns ->
  infer_namespace identifier = Ok (Some ns) ->
  local_record infer_namespace sr identifier info rows
  <-> local_record infer_namespace sr
        (String.append ns (String.append ":" identifier)) info rows.
Proof.
  intros Hid Hns Hinf. unfold local_record.
  rewrite (coerce_unqualified identifier ns Hid Hinf).
  rewrite (coerce_qualified ns identifier Hns). tauto.
Qed.

End LocalAdapter.

(** X4.  [get_metadata] of the local adapter returns exactly when the
    identifier, qualified if need be, splits into a namespace and an alias
    for which the alias table has a row and the handle yields the sequence
    information and the aliases of that row's sequence.  The record returned
    then holds the length, the alphabet, the formatted timestamp and one
    alias [namespace:alias] per row, in the order of the rows; the handle is
    only read. *)
Theorem local_get_metadata_returns :
  forall (infer_namespace : string -> result (option string))
         (isoformat : string -> string) (sr : SeqRepoDataProxy.SeqRepo)
         (identifier : string) (md : pyval),
    (fst (SeqRepoDataProxy.get_metadata infer_namespace isoformat identifier sr) = Ok md
     <-> exists info rows,
         local_record infer_namespace sr identifier info rows
         /\ md = metadata_document isoformat info rows)
    /\ snd (SeqRepoDataProxy.get_metadata infer_namespace isoformat identifier sr) = sr.
Proof.
  intros infer_namespace isoformat sr identifier md.
  destruct (local_get_metadata_raw infer_namespace isoformat sr identifier)
    as [Hfst Hsnd].
  split; [|exact Hsnd]. rewrite Hfst. split.
  - apply local_raw_inv.
  - intros [info [rows [Hrec Hmd]]]. subst md.
    rewrite (local_raw_found infer_namespace isoformat sr identifier info rows Hrec).
    reflexivity.
Qed.

Lemma local_get_metadata_returns_witness :
  fst (SeqRepoDataProxy.get_metadata always_refseq (fun s => s) "NM_000551.3"
         vhl_seqrepo)
  = Ok (metadata_document (fun s => s) vhl_seqinfo vhl_rows).
Proof.
  apply (proj1 (local_get_metadata_returns always_refseq (fun s => s) vhl_seqrepo
                  "NM_000551.3"
                  (metadata_document (fun s => s) vhl_seqinfo vhl_rows))).
  exists vhl_seqinfo, vhl_rows. split; [|reflexivity].
  exists "refseq:NM_000551.3", "refseq", "NM_000551.3",
    {| SeqRepoDataProxy.seq_id := "v_QTc1p-MUYdgrRv4LMT6ByXIOsdw3C_";
       SeqRepoDataProxy.namespace := "refseq";
       SeqRepoDataProxy.alias := "NM_000551.3" |},
    (@nil SeqRepoDataProxy.alias_row).
  repeat split.
Defined.

(** X5.  An identifier with two or more colons is never looked up by the
    local adapter: whatever the handle holds, [get_metadata] raises the
    [ValueError] of unpacking three parts into two names. *)
Theorem local_get_metadata_two_colons :
  forall (infer_namespace : string -> result (option string))
         (isoformat : string -> string) (sr : SeqRepoDataProxy.SeqRepo)
         (x y z : string),
    no_colon x -> no_colon y ->
    SeqRepoDataProxy.get_metadata infer_namespace isoformat
      (String.append x (String.append ":" (String.append y (String.append ":" z)))) sr
    = (Raise (ValueError "too many values to unpack (expected 2)"), sr).
Proof.
  intros infer_namespace isoformat sr x y z Hx Hy.
  unfold SeqRepoDataProxy.get_metadata, _SeqRepoDataProxyBase.get_metadata.
  unfold bind, lift. cbn [_SeqRepoDataProxyBase._get_metadata SeqRepoDataProxy.class].
  unfold SeqRepoDataProxy._get_metadata, rbind.
  rewrite (coerce_qualified infer_namespace x _ Hx).
  rewrite (split_three x y z Hx Hy). reflexivity.
Qed.

Lemma local_get_metadata_two_colons_witness :
  SeqRepoDataProxy.get_metadata always_refseq (fun s => s)
    "refseq:NM_000551.3:extra" vhl_seqrepo
  = (Raise (ValueError "too many values to unpack (expected 2)"), vhl_seqrepo).
Proof.
  exact (local_get_metadata_two_colons always_refseq (fun s => s) vhl_seqrepo
           "refseq" "NM_000551.3" "extra" eq_refl eq_refl).
Defined.

(** X6.  An unqualified identifier whose namespace is inferred is looked up
    as its qualified form: the local adapter returns the same record for
    both.  When the alias table has no row, each call raises [KeyError] with
    the identifier as that call was given it. *)
Theorem local_get_metadata_unqualified :
  forall (infer_namespace : string -> result (option string))
         (isoformat : string -> string) (sr : SeqRepoDataProxy.SeqRepo)
         (identifier ns : string),
    no_colon identifier -> no_colon ns ->
    infer_namespace identifier = Ok (Some ns) ->
    let qualified := String.append ns (String.append ":" identifier) in
    (forall md,
        fst (SeqRepoDataProxy.get_metadata infer_namespace isoformat identifier sr) = Ok md
        <-> fst (SeqRepoDataProxy.get_metadata infer_namespace isoformat qualified sr)
            = Ok md)
    /\ (SeqRepoDataProxy.find_aliases sr ns identifier = Ok [] ->
        SeqRepoDataProxy.get_metadata infer_namespace isoformat identifier sr
        = (Raise (KeyError identifier), sr)
        /\ SeqRepoDataProxy.get_metadata infer_namespace isoformat qualified sr
           = (Raise (KeyError qualified), sr)).
Proof.
  intros infer_namespace isoformat sr identifier ns Hid Hns Hinf qualified.
  subst qualified. split.
  - intro md.
    destruct (local_get_metadata_raw infer_namespace isoformat sr identifier) as [H1 _].
    destruct (local_get_metadata_raw infer_namespace isoformat sr
                (String.append ns (String.append ":" identifier))) as [H2 _].
    rewrite H1, H2. split; intro H.
    + destruct (local_raw_inv _ _ _ _ _ H) as [info [rows [Hrec Hmd]]]. subst md.
      apply (local_record_unqualified infer_namespace isoformat sr identifier ns info rows
               Hid Hns Hinf) in Hrec.
      rewrite (local_raw_found _ isoformat _ _ _ _ Hrec). reflexivity.
    + destruct (local_raw_inv _ _ _ _ _ H) as [info [rows [Hrec Hmd]]]. subst md.
      apply (local_record_unqualified infer_namespace isoformat sr identifier ns info rows
               Hid Hns Hinf) in Hrec.
      rewrite (local_raw_found _ isoformat _ _ _ _ Hrec). reflexivity.
  - intro Hf. split.
    + apply (local_unknown_identifier infer_namespace isoformat sr identifier
               (String.append ns (String.append ":" identifier))
               ns identifier None None).
      * apply coerce_unqualified; assumption.
      * apply split_qualified; assumption.
      * exact Hf.
    + apply (local_unknown_identifier infer_namespace isoformat sr
               (String.append ns (String.append ":" identifier))
               (String.append ns (String.append ":" identifier))
               ns identifier None None).
      * apply coerce_qualified; assumption.
      * apply split_qualified; assumption.
      * exact Hf.
Qed.

Lemma local_get_metadata_unqualified_witness :
  fst (SeqRepoDataProxy.get_metadata always_refseq (fun s => s) "NM_000551.3"
         vhl_seqrepo)
  = Ok (metadata_document (fun s => s) vhl_seqinfo vhl_rows)
  <-> fst (SeqRepoDataProxy.get_metadata always_refseq (fun s => s)
             "refseq:NM_000551.3" vhl_seqrepo)
      = Ok (metadata_document (fun s => s) vhl_seqinfo vhl_rows).
Proof.
  exact (proj1 (local_get_metadata_unqualified always_refseq (fun s => s) vhl_seqrepo
                  "NM_000551.3" "refseq" eq_refl eq_refl eq_refl)
               (metadata_document (fun s => s) vhl_seqinfo vhl_rows)).
Defined.

(** ** Translation through the local adapter *)

Lemma hash_all_atoms (l : list atom) : hash_all (map PAtom l) = Ok l.
Proof.
  induction l as [|a l IH]; simpl; [reflexivity|].
  rewrite IH. reflexivity.
Qed.

Lemma select_aliases_document (set_order : list atom -> list atom)
      (isoformat : string -> string) (info : SeqRepoDataProxy.seqinfo)
      (rows : list SeqRepoDataProxy.alias_row) (ns : string) :
  enumerates_sets set_order ->
  select_aliases set_order (Some ns) (metadata_document isoformat info rows)
  = Ok (filter (has_prefix (String.append ns ":"))
               (set_order (map (fun r => AStr (format_alias r)) rows))).
Proof.
  intro Hset. unfold select_aliases, list_of_set, metadata_document.
  cbn [getitem assoc String.eqb Ascii.eqb Bool.eqb rbind iterate].
  replace (map (fun r => PStr (format_alias r)) rows)
    with (map PAtom (map (fun r => AStr (format_alias r)) rows))
    by (rewrite map_map; reflexivity).
  rewrite hash_all_atoms. cbn [rbind].
  apply filter_startswith_strings.
  apply Forall_forall. intros a Ha.
  apply (proj1 (proj2 (Hset _) a)) in Ha. apply in_map_iff in Ha.
  destruct Ha as [r [Hr _]]. subst a. exact I.
Qed.

(** X7.  Through the local adapter, translating a known identifier into a
    namespace returns, without repetition, exactly the aliases
    [namespace:alias] of the rows whose namespace is the one asked for
    (namespaces being colon-free); a namespace in which the sequence has no
    row gives the empty list and no error. *)
Theorem translate_local_by_namespace :
  forall (set_order : list atom -> list atom) (o : nat)
         (infer_namespace : string -> result (option string))
         (isoformat : string -> string) (args : arguments) (ns : string)
         (info : SeqRepoDataProxy.seqinfo) (rows : list SeqRepoDataProxy.alias_row)
         (p : process SeqRepoDataProxy.SeqRepo),
    enumerates_sets set_order ->
    namespace_of args = Some ns ->
    cache_get (o, args) (cache p) = None ->
    local_record infer_namespace (env p) (identifier_of args) info rows ->
    no_colon ns ->
    (forall r, In r rows -> no_colon (SeqRepoDataProxy.namespace r)) ->
    exists l,
      fst (translate_sequence_identifier set_order
             (local_proxy o infer_namespace isoformat) args p) = Ok l
      /\ NoDup l
      /\ (forall a, In a l <->
                    exists r, In r rows /\ SeqRepoDataProxy.namespace r = ns
                              /\ a = AStr (format_alias r))
      /\ ((forall r, In r rows -> SeqRepoDataProxy.namespace r <> ns) -> l = []).
Proof.
  intros set_order o infer_namespace isoformat args ns info rows p
         Hset Hnsof Hmiss Hrec Hns Hrows.
  rewrite (translate_miss_result _ set_order
             (local_proxy o infer_namespace isoformat) args p Hmiss).
  cbn [methods local_proxy get_metadata _SeqRepoDataProxyBase.data_proxy].
  change (_SeqRepoDataProxyBase.get_metadata
            (SeqRepoDataProxy.class infer_namespace isoformat)
            (identifier_of args) (env p))
    with (SeqRepoDataProxy.get_metadata infer_namespace isoformat
            (identifier_of args) (env p)).
  rewrite (local_found infer_namespace isoformat (env p) (identifier_of args)
             info rows Hrec).
  cbn [fst]. rewrite Hnsof.
  rewrite (select_aliases_document set_order isoformat info rows ns Hset).
  assert (Hin : forall a,
             In a (filter (has_prefix (String.append ns ":"))
                          (set_order (map (fun r => AStr (format_alias r)) rows)))
             <-> exists r, In r rows /\ SeqRepoDataProxy.namespace r = ns
                           /\ a = AStr (format_alias r)).
  { intro a. rewrite filter_In. rewrite (proj2 (Hset _)). rewrite in_map_iff. split.
    - intros [[r [Ha Hr]] Hpre]. subst a. exists r. split; [exact Hr|].
      split; [|reflexivity].
      unfold has_prefix, format_alias in Hpre.
      rewrite (prefix_namespace ns _ _ Hns (Hrows r Hr)) in Hpre.
      apply String.eqb_eq in Hpre. exact Hpre.
    - intros [r [Hr [Hn Ha]]]. subst a. split; [exists r; auto|].
      unfold has_prefix, format_alias.
      rewrite (prefix_namespace ns _ _ Hns (Hrows r Hr)).
      apply String.eqb_eq. exact Hn. }
  eexists. split; [reflexivity|]. split; [|split].
  - apply NoDup_filter. apply (proj1 (Hset _)).
  - exact Hin.
  - intro Hnone.
    destruct (filter (has_prefix (String.append ns ":"))
                     (set_order (map (fun r => AStr (format_alias r)) rows)))
      as [|a l] eqn:Hf; [reflexivity|].
    exfalso. destruct (proj1 (Hin a) (or_introl eq_refl)) as [r [Hr [Hn _]]].
    exact (Hnone r Hr Hn).
Qed.

Lemma vhl_local_record :
  local_record always_refseq vhl_seqrepo "NM_000551.3" vhl_seqinfo vhl_rows.
Proof.
  exists "refseq:NM_000551.3", "refseq", "NM_000551.3",
    {| SeqRepoDataProxy.seq_id := "v_QTc1p-MUYdgrRv4LMT6ByXIOsdw3C_";
       SeqRepoDataProxy.namespace := "refseq";
       SeqRepoDataProxy.alias := "NM_000551.3" |},
    (@nil SeqRepoDataProxy.alias_row).
  repeat split.
Defined.

Lemma vhl_rows_colon_free :
  forall r, In r vhl_rows -> no_colon (SeqRepoDataProxy.namespace r).
Proof.
  intros r [Hr|[Hr|[]]]; subst r; reflexivity.
Defined.

Lemma translate_local_by_namespace_witness :
  exists l,
    fst (translate_sequence_identifier insertion_order
           (local_proxy 0 always_refseq (fun s => s))
           (Positional "NM_000551.3" (Some "ga4gh"))
           (fresh_process vhl_seqrepo)) = Ok l
    /\ NoDup l
    /\ (forall a, In a l <->
                  exists r, In r vhl_rows /\ SeqRepoDataProxy.namespace r = "ga4gh"
                            /\ a = AStr (format_alias r))
    /\ ((forall r, In r vhl_rows -> SeqRepoDataProxy.namespace r <> "ga4gh") -> l = []).
Proof.
  exact (translate_local_by_namespace insertion_order 0 always_refseq (fun s => s)
           (Positional "NM_000551.3" (Some "ga4gh")) "ga4gh" vhl_seqinfo vhl_rows
           (fresh_process vhl_seqrepo)
           insertion_order_enumerates eq_refl eq_refl vhl_local_record eq_refl
           vhl_rows_colon_free).
Defined.

(** X8.  A sequence proxy built over the local adapter for a known
    identifier costs one metadata call, leaves the handle as it was, and
    reports as its length the [len] of the sequence information, whatever
    happens to the backend afterwards. *)
Theorem sequence_proxy_over_local :
  forall (o : nat) (infer_namespace : string -> result (option string))
         (isoformat : string -> string) (identifier : string)
         (info : SeqRepoDataProxy.seqinfo) (rows : list SeqRepoDataProxy.alias_row)
         (p : process SeqRepoDataProxy.SeqRepo),
    local_record infer_namespace (env p) identifier info rows ->
    exists sp,
      SequenceProxy.__init__ (local_proxy o infer_namespace isoformat) identifier p
      = (Ok sp, {| cache := cache p;
                   trace := trace p ++ [EvGetMetadata o identifier];
                   env := env p |})
      /\ forall q : process SeqRepoDataProxy.SeqRepo,
          SequenceProxy.__len__ sp q = (Ok (PInt (SeqRepoDataProxy.len info)), q).
Proof.
  intros o infer_namespace isoformat identifier info rows p Hrec.
  unfold SequenceProxy.__init__, call_get_metadata, bind, ret.
  cbn [methods local_proxy get_metadata _SeqRepoDataProxyBase.data_proxy oid].
  change (_SeqRepoDataProxyBase.get_metadata
            (SeqRepoDataProxy.class infer_namespace isoformat) identifier (env p))
    with (SeqRepoDataProxy.get_metadata infer_namespace isoformat identifier (env p)).
  rewrite (local_found infer_namespace isoformat (env p) identifier info rows Hrec).
  eexists. split; [reflexivity|].
  intro q. reflexivity.
Qed.

Lemma sequence_proxy_over_local_witness :
  exists sp,
    SequenceProxy.__init__ (local_proxy 0 always_refseq (fun s => s)) "NM_000551.3"
      (fresh_process vhl_seqrepo)
    = (Ok sp, {| cache := [];
                 trace := [] ++ [EvGetMetadata 0 "NM_000551.3"];
                 env := vhl_seqrepo |})
    /\ forall q : process SeqRepoDataProxy.SeqRepo,
        SequenceProxy.__len__ sp q = (Ok (PInt 4560), q).
Proof.
  exact (sequence_proxy_over_local 0 always_refseq (fun s => s) "NM_000551.3"
           vhl_seqinfo vhl_rows (fresh_process vhl_seqrepo) vhl_local_record).
Defined.

(** ** More on the cache *)

Lemma run_calls_set_env_cache {E : Type} (later : E) (p : process E) :
  cache (set_env later p) = cache p.
Proof. reflexivity. Qed.

(** X9.  A translation that has been returned is never refreshed: however
    the backend changes afterwards, and with fewer than 128 other calls in
    between, a call by the same proxy with the same arguments passed in the
    same way gives the list computed before, and [get_metadata] is not
    asked again. *)
Theorem translate_ignores_backend_changes :
  forall (E : Type) (set_order : list atom -> list atom) (self : proxy E)
         (args : arguments)
         (others : list (call E)) (later : E) (p : process E) (v : list atom),
    fst (translate_sequence_identifier set_order self args p) = Ok v ->
    (List.length others < maxsize)%nat ->
    let p1 := snd (translate_sequence_identifier set_order self args p) in
    let p2 := run_calls set_order others (set_env later p1) in
    fst (translate_sequence_identifier set_order self args p2) = Ok v
    /\ trace (snd (translate_sequence_identifier set_order self args p2))
       = trace p2
    /\ env (snd (translate_sequence_identifier set_order self args p2))
       = env p2.
Proof.
  intros E set_order self args others later p v Hok Hlen p1 p2.
  assert (Hhit : cache_get (oid self, args) (cache p2) = Some v).
  { apply (cached_within_get (0 + List.length others)).
    apply run_calls_keeps; [simpl; exact Hlen|].
    rewrite run_calls_set_env_cache.
    apply translate_caches_result. exact Hok. }
  rewrite (translate_hit set_order self args p2 v Hhit).
  repeat split.
Qed.

Lemma translate_ignores_backend_changes_witness :
  fst (translate_sequence_identifier insertion_order table_proxy
         (PositionalKeyword "NM_000551.3" (Some "ga4gh"))
         (run_calls insertion_order []
            (set_env []
               (snd (translate_sequence_identifier insertion_order table_proxy
                       (PositionalKeyword "NM_000551.3" (Some "ga4gh"))
                       (fresh_process vhl_table))))))
  = Ok [AStr "ga4gh:SQ.v_QTc1p-MUYdgrRv4LMT6ByXIOsdw3C_"].
Proof.
  refine (proj1 (translate_ignores_backend_changes table insertion_order table_proxy
                   (PositionalKeyword "NM_000551.3" (Some "ga4gh")) [] []
                   (fresh_process vhl_table)
                   [AStr "ga4gh:SQ.v_QTc1p-MUYdgrRv4LMT6ByXIOsdw3C_"] eq_refl _)).
  vm_compute. lia.
Defined.

(** X10.  An entry serves only the very same call.  Starting with an empty
    cache, a call that differs from the previous one in the proxy object,
    in the identifier, in the namespace, or only in the way the same values
    are passed (as [f(i)] after [f(i, None)], or [f(i, namespace=ns)] after
    [f(i, ns)]) reaches [get_metadata] itself. *)
Theorem translate_key_is_exact :
  forall (E : Type) (set_order : list atom -> list atom) (self self' : proxy E)
         (args args' : arguments) (p : process E),
    cache p = [] ->
    (oid self, args) <> (oid self', args') ->
    trace (snd (translate_sequence_identifier set_order self' args'
                  (snd (translate_sequence_identifier set_order self args p))))
    = trace p ++ [EvGetMetadata (oid self) (identifier_of args);
                  EvGetMetadata (oid self') (identifier_of args')].
Proof.
  intros E set_order self self' args args' p Hc Hne.
  assert (Hmiss : cache_get (oid self, args) (cache p) = None)
    by (rewrite Hc; reflexivity).
  pose proof (translate_cache set_order self args p) as Hcache.
  simpl in Hcache. rewrite Hmiss in Hcache.
  pose proof (translate_miss_trace set_order self args p Hmiss) as Ht.
  rewrite translate_miss_trace.
  - rewrite Ht. rewrite <- app_assoc. reflexivity.
  - destruct (fst (translate_sequence_identifier set_order self args p));
      rewrite Hcache, Hc.
    + unfold cache_store. simpl. apply cache_get_singleton_other. exact Hne.
    + reflexivity.
Qed.

Lemma translate_key_is_exact_witness :
  trace (snd (translate_sequence_identifier insertion_order table_proxy
                (Positional1 "NM_000551.3")
                (snd (translate_sequence_identifier insertion_order table_proxy
                        (Positional "NM_000551.3" None) (fresh_process vhl_table)))))
  = [] ++ [EvGetMetadata 0 "NM_000551.3"; EvGetMetadata 0 "NM_000551.3"].
Proof.
  exact (translate_key_is_exact table insertion_order table_proxy table_proxy
           (Positional "NM_000551.3" None) (Positional1 "NM_000551.3")
           (fresh_process vhl_table)
           eq_refl ltac:(discriminate)).
Defined.

(** ** Accesses through a sequence proxy *)

Lemma access_run_state {E : Type} (sp : SequenceProxy.self_t E) (a : access)
      (p : process E) :
  cache (snd (access_run sp a p)) = cache p
  /\ trace (snd (access_run sp a p))
     = trace p ++ access_events sp [a].
Proof.
  unfold access_events.
  destruct a as [[i|start stop [step|]]|]; simpl;
    unfold SequenceProxy.__getitem__, SequenceProxy.__str__, call_get_sequence, raise;
    simpl.
  - destruct (get_sequence _ _ _ _ _); split; reflexivity.
  - split; [reflexivity | rewrite app_nil_r; reflexivity].
  - destruct (get_sequence _ _ _ _ _); split; reflexivity.
  - destruct (get_sequence _ _ _ _ _); split; reflexivity.
Qed.

(** X12.  A sequence proxy keeps no sequence content.  Over any series of
    accesses [sp[i]], [sp[a:b]], [sp[a:b:s]] and [str(sp)], every access
    without a step calls [get_sequence] once, with the range asked for, even
    when the same range was fetched before; an access with a step calls
    nothing; [get_metadata] is not called again; and the translation cache
    is not touched. *)
Theorem sequence_proxy_fetches_every_time :
  forall (E : Type) (sp : SequenceProxy.self_t E) (l : list access) (p : process E),
    trace (run_accesses sp l p) = trace p ++ access_events sp l
    /\ cache (run_accesses sp l p) = cache p.
Proof.
  intros E sp l. induction l as [|a l IH]; intro p; simpl.
  - unfold access_events. simpl. rewrite app_nil_r. split; reflexivity.
  - destruct (IH (snd (access_run sp a p))) as [Ht Hc].
    destruct (access_run_state sp a p) as [Hc1 Ht1].
    rewrite Ht, Hc, Hc1, Ht1. split; [|reflexivity].
    rewrite <- app_assoc. f_equal.
    unfold access_events. simpl.
    destruct (accepted a); reflexivity.
Qed.

(** ** The requests of the REST adapter *)

Lemma append_assoc3 (a b c : string) :
  String.append (String.append a b) c = String.append a (String.append b c).
Proof.
  induction a as [|x a IH]; simpl; [reflexivity|].
  rewrite IH. reflexivity.
Qed.

Lemma rest_urls (base identifier : string) :
  sequence_url (SeqRepoRESTDataProxy.__init__ base) identifier
  = String.append base (String.append "/1/sequence/" identifier)
  /\ metadata_url (SeqRepoRESTDataProxy.__init__ base) identifier
     = String.append base (String.append "/1/metadata/" identifier).
Proof.
  unfold sequence_url, metadata_url, SeqRepoRESTDataProxy.__init__,
    SeqRepoRESTDataProxy.rest_version.
  cbn [SeqRepoRESTDataProxy.base_url].
  split; rewrite append_assoc3; reflexivity.
Qed.

(** ** Translation through the REST adapter *)

Lemma rest_get_metadata_raised
      (self : SeqRepoRESTDataProxy.self_t) (identifier : string)
      (net : SeqRepoRESTDataProxy.network) (resp : SeqRepoRESTDataProxy.Response)
      (e : exn) :
  net (metadata_url self identifier) [] = Ok resp ->
  (if (SeqRepoRESTDataProxy.status_code resp =? 404)%Z
   then Raise (KeyError identifier)
   else if (400 <=? SeqRepoRESTDataProxy.status_code resp)%Z
           && (SeqRepoRESTDataProxy.status_code resp <? 600)%Z
        then Raise (HTTPError (SeqRepoRESTDataProxy.status_code resp))
        else rbind (SeqRepoRESTDataProxy.json resp)
                   (fun md => rbind (getitem md "aliases") (fun _ => Ok md)))
  = Raise e ->
  fst (SeqRepoRESTDataProxy.get_metadata self identifier net) = Raise e.
Proof.
  intros Hnet H.
  unfold SeqRepoRESTDataProxy.get_metadata, _SeqRepoDataProxyBase.get_metadata.
  unfold bind, lift.
  cbn [_SeqRepoDataProxyBase._get_metadata SeqRepoRESTDataProxy.class].
  rewrite (rest_get_metadata_response self identifier net resp Hnet).
  destruct (SeqRepoRESTDataProxy.status_code resp =? 404)%Z.
  - inversion H. reflexivity.
  - destruct ((400 <=? SeqRepoRESTDataProxy.status_code resp)%Z
              && (SeqRepoRESTDataProxy.status_code resp <? 600)%Z).
    + inversion H. reflexivity.
    + unfold rbind in H.
      destruct (SeqRepoRESTDataProxy.json resp) as [md|e0]; [|inversion H; reflexivity].
      destruct (getitem md "aliases") as [old|e1]; [discriminate H|].
      inversion H. reflexivity.
Qed.

Lemma outside_error_range (status : Z) :
  (status < 400 \/ 600 <= status)%Z ->
  (status =? 404)%Z = false /\ (400 <=? status)%Z && (status <? 600)%Z = false.
Proof.
  intro H. split.
  - apply Z.eqb_neq. lia.
  - destruct (400 <=? status)%Z eqn:Hlo; [|reflexivity].
    apply Z.leb_le in Hlo. simpl. apply Z.ltb_ge. lia.
Qed.

(** X14.  Through the REST adapter the translation raises
    [KeyError(identifier)] in each of three cases: the service answers 404;
    it answers outside 400-599 with a body that is not JSON; it answers
    outside 400-599 with a JSON object that has no ["aliases"] entry.
    Nothing is cached in any of them. *)
Theorem translate_over_rest_not_found :
  forall (set_order : list atom -> list atom) (o : nat)
         (self : SeqRepoRESTDataProxy.self_t) (args : arguments)
         (p : process SeqRepoRESTDataProxy.network)
         (resp : SeqRepoRESTDataProxy.Response),
    cache_get (o, args) (cache p) = None ->
    env p (metadata_url self (identifier_of args)) [] = Ok resp ->
    (SeqRepoRESTDataProxy.status_code resp = 404%Z
     \/ ((SeqRepoRESTDataProxy.status_code resp < 400
          \/ 600 <= SeqRepoRESTDataProxy.status_code resp)%Z
         /\ ((exists msg, SeqRepoRESTDataProxy.json resp = Raise (JSONDecodeError msg))
             \/ (exists d, SeqRepoRESTDataProxy.json resp = Ok (PDict d)
                           /\ assoc "aliases" d = None)))) ->
    fst (translate_sequence_identifier set_order (rest_proxy o self) args p)
    = Raise (KeyError (identifier_of args))
    /\ cache (snd (translate_sequence_identifier set_order (rest_proxy o self) args p))
       = cache p.
Proof.
  intros set_order o self args p resp Hmiss Hnet Hcase.
  assert (Hraise : exists e,
             fst (SeqRepoRESTDataProxy.get_metadata self (identifier_of args) (env p))
             = Raise e
             /\ is_lookup_failure e = true).
  { destruct Hcase as [H404 | [Hrange [[msg Hjson] | [d [Hjson Hal]]]]].
    - exists (KeyError (identifier_of args)). split; [|reflexivity].
      apply (rest_get_metadata_raised self (identifier_of args) (env p) resp _ Hnet).
      rewrite H404. reflexivity.
    - exists (JSONDecodeError msg). split; [|reflexivity].
      apply (rest_get_metadata_raised self (identifier_of args) (env p) resp _ Hnet).
      destruct (outside_error_range _ Hrange) as [H1 H2].
      rewrite H1, H2, Hjson. reflexivity.
    - exists (KeyError "aliases"). split; [|reflexivity].
      apply (rest_get_metadata_raised self (identifier_of args) (env p) resp _ Hnet).
      destruct (outside_error_range _ Hrange) as [H1 H2].
      rewrite H1, H2, Hjson. simpl. rewrite Hal. reflexivity. }
  destruct Hraise as [e [He Hl]].
  pose proof (translate_cache set_order (rest_proxy o self) args p)
    as Hcache.
  simpl in Hcache. rewrite Hmiss in Hcache.
  rewrite (translate_miss_result _ set_order (rest_proxy o self) args p
             Hmiss) in *.
  change (get_metadata (methods (rest_proxy o self)) (identifier_of args) (env p))
    with (SeqRepoRESTDataProxy.get_metadata self (identifier_of args) (env p)) in *.
  rewrite He in *. rewrite Hl in *. split; [reflexivity | exact Hcache].
Qed.

Lemma translate_over_rest_not_found_witness :
  fst (translate_sequence_identifier insertion_order (rest_proxy 1 localhost)
         (Positional "NM_000551.3" None) (fresh_process (answering vhl_response)))
  = Raise (KeyError "NM_000551.3").
Proof.
  refine (proj1 (translate_over_rest_not_found insertion_order 1 localhost
                   (Positional "NM_000551.3" None)
                   (fresh_process (answering vhl_response))
                   vhl_response eq_refl eq_refl _)).
  right. split; [left; reflexivity|].
  left. exists "Expecting value". reflexivity.
Defined.

(** X15.  Through the REST adapter an answer from 400 to 599 other than 404
    makes the translation raise [HTTPError] with that status; the failure
    is not cached, so the next call with the same arguments asks the
    service again. *)
Theorem translate_over_rest_remote_error :
  forall (set_order : list atom -> list atom) (o : nat)
         (self : SeqRepoRESTDataProxy.self_t) (args : arguments)
         (p : process SeqRepoRESTDataProxy.network)
         (resp : SeqRepoRESTDataProxy.Response),
    cache_get (o, args) (cache p) = None ->
    env p (metadata_url self (identifier_of args)) [] = Ok resp ->
    (400 <= SeqRepoRESTDataProxy.status_code resp < 600)%Z ->
    SeqRepoRESTDataProxy.status_code resp <> 404%Z ->
    let p1 := snd (translate_sequence_identifier set_order (rest_proxy o self) args p) in
    fst (translate_sequence_identifier set_order (rest_proxy o self) args p)
    = Raise (HTTPError (SeqRepoRESTDataProxy.status_code resp))
    /\ cache p1 = cache p
    /\ trace (snd (translate_sequence_identifier set_order (rest_proxy o self) args p1))
       = trace p ++ [EvGetMetadata o (identifier_of args);
                     EvGetMetadata o (identifier_of args)].
Proof.
  intros set_order o self args p resp Hmiss Hnet Hrange H404 p1.
  assert (He : fst (SeqRepoRESTDataProxy.get_metadata self (identifier_of args) (env p))
               = Raise (HTTPError (SeqRepoRESTDataProxy.status_code resp))).
  { apply (rest_get_metadata_raised self (identifier_of args) (env p) resp _ Hnet).
    apply Z.eqb_neq in H404. rewrite H404.
    destruct Hrange as [Hlo Hhi].
    apply Z.leb_le in Hlo. apply Z.ltb_lt in Hhi. rewrite Hlo, Hhi. reflexivity. }
  pose proof (translate_cache set_order (rest_proxy o self) args p)
    as Hcache.
  simpl in Hcache. rewrite Hmiss in Hcache.
  pose proof (translate_miss_result _ set_order (rest_proxy o self) args p Hmiss) as Hres.
  change (get_metadata (methods (rest_proxy o self)) (identifier_of args) (env p))
    with (SeqRepoRESTDataProxy.get_metadata self (identifier_of args) (env p)) in Hres.
  rewrite He in Hres. simpl in Hres.
  rewrite Hres in Hcache.
  assert (Hmiss1 : cache_get (oid (rest_proxy o self), args) (cache p1)
                   = None).
  { subst p1. rewrite Hcache. exact Hmiss. }
  split; [exact Hres|]. split; [exact Hcache|].
  rewrite (translate_miss_trace set_order (rest_proxy o self) args p1
             Hmiss1).
  subst p1.
  rewrite (translate_miss_trace set_order (rest_proxy o self) args p
             Hmiss).
  rewrite <- app_assoc. reflexivity.
Qed.

Lemma translate_over_rest_remote_error_witness :
  fst (translate_sequence_identifier insertion_order (rest_proxy 1 localhost)
         (Positional "NM_000551.3" None) (fresh_process (answering server_error)))
  = Raise (HTTPError 500).
Proof.
  refine (proj1 (translate_over_rest_remote_error insertion_order 1 localhost
                   (Positional "NM_000551.3" None)
                   (fresh_process (answering server_error))
                   server_error eq_refl eq_refl _ _)).
  - simpl. lia.
  - discriminate.
Defined.

(** ** What the adapters return and raise *)

Lemma base_get_metadata_run (E : Type) (self : _SeqRepoDataProxyBase.subclass E)
      (identifier : string) (s : E) :
  fst (_SeqRepoDataProxyBase.get_metadata self identifier s)
  = rbind (fst (_SeqRepoDataProxyBase._get_metadata self identifier s)) copy_aliases.
Proof.
  unfold _SeqRepoDataProxyBase.get_metadata, copy_aliases. unfold_monad.
  destruct (_SeqRepoDataProxyBase._get_metadata self identifier s) as [[md|e] s'];
    [|reflexivity].
  cbn [fst].
  destruct (getitem md "aliases") as [old|e1]; [|reflexivity].
  destruct (iterate old) as [copied|e2]; [|reflexivity].
  destruct (setitem md "aliases" (PList copied)); reflexivity.
Qed.

Lemma rest_get_sequence_outcome
      (self : SeqRepoRESTDataProxy.self_t) (identifier : string)
      (start end_ : option Z) (net : SeqRepoRESTDataProxy.network) :
  SeqRepoRESTDataProxy.get_sequence self identifier start end_ net
  = (sequence_outcome identifier
       (net (sequence_url self identifier) [("start", start); ("end", end_)]),
     net).
Proof.
  unfold SeqRepoRESTDataProxy.get_sequence, _SeqRepoDataProxyBase.get_sequence.
  cbn [_SeqRepoDataProxyBase._get_sequence SeqRepoRESTDataProxy.class].
  unfold sequence_outcome.
  destruct (net (sequence_url self identifier) [("start", start); ("end", end_)])
    as [resp|e] eqn:Hnet.
  - apply (rest_get_sequence_response self identifier start end_ net resp Hnet).
  - apply (proj1 (rest_transport_failure self identifier start end_ net e) Hnet).
Qed.

Lemma rest_get_metadata_outcome
      (self : SeqRepoRESTDataProxy.self_t) (identifier : string)
      (net : SeqRepoRESTDataProxy.network) :
  SeqRepoRESTDataProxy.get_metadata self identifier net
  = (metadata_outcome identifier (net (metadata_url self identifier) []), net).
Proof.
  assert (Hsnd : snd (SeqRepoRESTDataProxy.get_metadata self identifier net) = net).
  { unfold SeqRepoRESTDataProxy.get_metadata, _SeqRepoDataProxyBase.get_metadata.
    unfold_monad.
    cbn [_SeqRepoDataProxyBase._get_metadata SeqRepoRESTDataProxy.class].
    unfold SeqRepoRESTDataProxy._get_metadata, SeqRepoRESTDataProxy.requests_get.
    unfold_monad.
    destruct (net _ _) as [resp|e]; [|reflexivity].
    destruct (SeqRepoRESTDataProxy.status_code resp =? 404)%Z; [reflexivity|].
    destruct (SeqRepoRESTDataProxy.raise_for_status resp); [|reflexivity].
    destruct (SeqRepoRESTDataProxy.json resp) as [md|e]; [|reflexivity].
    destruct (getitem md "aliases") as [old|e1]; [|reflexivity].
    destruct (iterate old) as [copied|e2]; [|reflexivity].
    destruct (setitem md "aliases" (PList copied)); reflexivity. }
  assert (Hfst : fst (SeqRepoRESTDataProxy.get_metadata self identifier net)
                 = metadata_outcome identifier (net (metadata_url self identifier) [])).
  { unfold SeqRepoRESTDataProxy.get_metadata. rewrite base_get_metadata_run.
    cbn [_SeqRepoDataProxyBase._get_metadata SeqRepoRESTDataProxy.class].
    unfold metadata_outcome.
    destruct (net (metadata_url self identifier) []) as [resp|e] eqn:Hnet.
    - rewrite (rest_get_metadata_response self identifier net resp Hnet). cbn [fst].
      destruct (SeqRepoRESTDataProxy.status_code resp =? 404)%Z; [reflexivity|].
      destruct ((400 <=? SeqRepoRESTDataProxy.status_code resp)%Z
                && (SeqRepoRESTDataProxy.status_code resp <? 600)%Z); reflexivity.
    - rewrite (proj2 (rest_transport_failure self identifier None None net e) Hnet).
      reflexivity. }
  destruct (SeqRepoRESTDataProxy.get_metadata self identifier net) as [r s'].
  simpl in *. subst. reflexivity.
Qed.

(** X13.  A proxy made for [base_url] sends [get_sequence] to
    [<base_url>/1/sequence/<identifier>] with the parameters [start] and
    [end] as given, and [get_metadata] to
    [<base_url>/1/metadata/<identifier>] without parameters: on every
    network, what each method returns or raises is made of the answer to
    that request and of nothing else.  A transport exception is raised as
    it is, and the text of a 200 answer is the sequence returned. *)
Theorem rest_adapter_requests :
  forall (base identifier : string) (start end_ : option Z)
         (net : SeqRepoRESTDataProxy.network),
    let self := SeqRepoRESTDataProxy.__init__ base in
    let sequence_request :=
      net (String.append base (String.append "/1/sequence/" identifier))
          [("start", start); ("end", end_)] in
    let metadata_request :=
      net (String.append base (String.append "/1/metadata/" identifier)) [] in
    SeqRepoRESTDataProxy.get_sequence self identifier start end_ net
    = (sequence_outcome identifier sequence_request, net)
    /\ SeqRepoRESTDataProxy.get_metadata self identifier net
       = (metadata_outcome identifier metadata_request, net)
    /\ (forall e, sequence_request = Raise e ->
                  fst (SeqRepoRESTDataProxy.get_sequence self identifier start end_ net)
                  = Raise e)
    /\ (forall resp,
           sequence_request = Ok resp ->
           SeqRepoRESTDataProxy.status_code resp = 200%Z ->
           fst (SeqRepoRESTDataProxy.get_sequence self identifier start end_ net)
           = Ok (SeqRepoRESTDataProxy.text resp)).
Proof.
  intros base identifier start end_ net self sequence_request metadata_request.
  destruct (rest_urls base identifier) as [Hs Hm].
  assert (Hseq : SeqRepoRESTDataProxy.get_sequence self identifier start end_ net
                 = (sequence_outcome identifier sequence_request, net)).
  { subst self sequence_request. rewrite rest_get_sequence_outcome, Hs. reflexivity. }
  split; [exact Hseq|]. split; [|split].
  - subst self metadata_request. rewrite rest_get_metadata_outcome, Hm. reflexivity.
  - intros e He. rewrite Hseq, He. reflexivity.
  - intros resp Hresp H200. rewrite Hseq, Hresp. simpl. rewrite H200. reflexivity.
Qed.

Lemma rest_adapter_requests_witness :
  fst (SeqRepoRESTDataProxy.get_sequence localhost "NM_000551.3"
         (Some 0%Z) (Some 10%Z)
         (fun url _ =>
            if String.eqb url "http://localhost:5000/seqrepo/1/sequence/NM_000551.3"
            then Ok vhl_response
            else Raise (ConnectionError "Connection refused")))
  = Ok "CCTCGCCTCC".
Proof.
  exact (proj2 (proj2 (proj2
           (rest_adapter_requests "http://localhost:5000/seqrepo" "NM_000551.3"
              (Some 0%Z) (Some 10%Z)
              (fun url _ =>
                 if String.eqb url
                      "http://localhost:5000/seqrepo/1/sequence/NM_000551.3"
                 then Ok vhl_response
                 else Raise (ConnectionError "Connection refused")))))
           vhl_response eq_refl eq_refl).
Defined.

Lemma status_tests (status : Z) :
  ((status =? 404)%Z = true /\ status = 404%Z)
  \/ ((status =? 404)%Z = false
      /\ (400 <=? status)%Z && (status <? 600)%Z = true
      /\ status <> 404%Z /\ (400 <= status < 600)%Z)
  \/ ((status =? 404)%Z = false
      /\ (400 <=? status)%Z && (status <? 600)%Z = false
      /\ status <> 404%Z /\ ~ (400 <= status < 600)%Z).
Proof.
  destruct (Z.eqb_spec status 404) as [Heq|Hne]; [left; auto|].
  right.
  destruct (Z.leb_spec 400 status) as [Hlo|Hlo];
    destruct (Z.ltb_spec status 600) as [Hhi|Hhi]; simpl.
  - left. repeat split; auto.
  - right. repeat split; auto. lia.
  - right. repeat split; auto. lia.
  - right. repeat split; auto. lia.
Qed.

Lemma copy_aliases_raises (e : exn) (data : pyval) :
  copy_aliases data = Raise e <-> wrong_shape e data.
Proof.
  unfold copy_aliases, wrong_shape, rbind.
  destruct (getitem data "aliases") as [old|e1] eqn:Hget.
  - destruct (iterate old) as [copied|e2] eqn:Hit.
    + split.
      * intro H. exfalso.
        destruct data as [a|l|d]; simpl in *;
          [destruct a; discriminate | discriminate | discriminate].
      * intros [H | [old' [Hold Hraise]]]; [discriminate H|].
        inversion Hold; subst old'. rewrite Hit in Hraise. discriminate Hraise.
    + split.
      * intro H. inversion H; subst. right. exists old. auto.
      * intros [H | [old' [Hold Hraise]]]; [discriminate H|].
        inversion Hold; subst old'. rewrite Hit in Hraise.
        inversion Hraise. reflexivity.
  - split.
    + intro H. left. exact H.
    + intros [H | [old' [Hold _]]]; [exact H | discriminate Hold].
Qed.

Lemma sequence_outcome_raises
      (self : SeqRepoRESTDataProxy.self_t) (net : SeqRepoRESTDataProxy.network)
      (identifier : string) (start end_ : option Z) (e : exn) :
  sequence_outcome identifier
    (net (sequence_url self identifier) [("start", start); ("end", end_)]) = Raise e
  <-> rest_sequence_failure self net identifier e start end_.
Proof.
  unfold sequence_outcome, rest_sequence_failure, translated_status.
  destruct (net (sequence_url self identifier) [("start", start); ("end", end_)])
    as [resp|e0].
  - destruct (status_tests (SeqRepoRESTDataProxy.status_code resp))
      as [[Hb Hs] | [[Hb [Hr [Hn Hin]]] | [Hb [Hr [Hn Hout]]]]];
      rewrite Hb; try rewrite Hr; split.
    + intro H. inversion H. right. exists resp. auto.
    + intros [H | [resp' [Hresp [[_ He] | [Hn _]]]]];
        [discriminate H | congruence |].
      inversion Hresp; subst resp'. contradiction.
    + intro H. inversion H. right. exists resp. split; [reflexivity|]. right. auto.
    + intros [H | [resp' [Hresp [[Hs _] | [_ [_ He]]]]]];
        [discriminate H | | inversion Hresp; subst resp'; congruence].
      inversion Hresp; subst resp'. contradiction.
    + discriminate.
    + intros [H | [resp' [Hresp [[Hs _] | [_ [Hin _]]]]]];
        [discriminate H | |]; inversion Hresp; subst resp'; contradiction.
  - split.
    + intro H. left. (inversion H; reflexivity).
    + intros [H | [resp [Hresp _]]]; [(inversion H; reflexivity) | discriminate Hresp].
Qed.

Lemma metadata_outcome_raises
      (self : SeqRepoRESTDataProxy.self_t) (net : SeqRepoRESTDataProxy.network)
      (identifier : string) (e : exn) :
  metadata_outcome identifier (net (metadata_url self identifier) []) = Raise e
  <-> rest_metadata_failure self net identifier e.
Proof.
  unfold metadata_outcome, rest_metadata_failure, translated_status, passed_status.
  destruct (net (metadata_url self identifier) []) as [resp|e0].
  - destruct (status_tests (SeqRepoRESTDataProxy.status_code resp))
      as [[Hb Hs] | [[Hb [Hr [Hn Hin]]] | [Hb [Hr [Hn Hout]]]]];
      rewrite Hb; try rewrite Hr; split.
    + intro H. inversion H. right. exists resp. auto.
    + intros [H | [resp' [Hresp Hcase]]]; [discriminate H|].
      inversion Hresp; subst resp'.
      destruct Hcase as [[[_ He] | [Hn _]] | [[[Hn _] _] | [data [[Hn _] _]]]];
        [congruence | contradiction | contradiction | contradiction].
    + intro H. inversion H. right. exists resp. split; [reflexivity|].
      left. right. auto.
    + intros [H | [resp' [Hresp Hcase]]]; [discriminate H|].
      inversion Hresp; subst resp'.
      destruct Hcase as [[[Hs _] | [_ [_ He]]] | [[[_ Hout] _] | [data [[_ Hout] _]]]];
        [contradiction | congruence | contradiction | contradiction].
    + intro H. right. exists resp. split; [reflexivity|]. right.
      unfold rbind in H.
      destruct (SeqRepoRESTDataProxy.json resp) as [data|e1] eqn:Hjson.
      * right. exists data. split; [auto|]. split; [reflexivity|].
        apply copy_aliases_raises. (inversion H; reflexivity).
      * left. split; [auto|]. (inversion H; reflexivity).
    + intros [H | [resp' [Hresp Hcase]]]; [discriminate H|].
      inversion Hresp; subst resp'.
      destruct Hcase as [[[Hs _] | [_ [Hin _]]] | [[_ Hj] | [data [_ [Hj Hw]]]]];
        [contradiction | contradiction | |].
      * rewrite Hj. reflexivity.
      * rewrite Hj. simpl. apply copy_aliases_raises. exact Hw.
  - split.
    + intro H. left. (inversion H; reflexivity).
    + intros [H | [resp [Hresp _]]]; [(inversion H; reflexivity) | discriminate Hresp].
Qed.

Lemma local_metadata_raises
      (infer_namespace : string -> result (option string))
      (isoformat : string -> string) (sr : SeqRepoDataProxy.SeqRepo)
      (identifier : string) (e : exn) :
  fst (SeqRepoDataProxy._get_metadata infer_namespace isoformat identifier sr) = Raise e
  <-> local_metadata_failure infer_namespace sr identifier e.
Proof.
  unfold SeqRepoDataProxy._get_metadata, local_metadata_failure, rbind. cbn [fst].
  destruct (SeqRepoDataProxy.coerce_namespace infer_namespace identifier)
    as [qualified|e0].
  2:{ split; [intro H; left; (inversion H; reflexivity)|].
      intros [H | [q [Hq _]]]; [(inversion H; reflexivity) | discriminate Hq]. }
  destruct (unpack2 (split ":"%char 2 qualified)) as [[ns a]|e0] eqn:Hu.
  2:{ split.
      - intro H. right. exists qualified. split; [reflexivity|]. left.
        rewrite Hu. (inversion H; reflexivity).
      - intros [H | [q [Hq [Hun | [ns [a [Hun _]]]]]]]; [discriminate H | |];
          inversion Hq; subst q; rewrite Hu in Hun;
          [(inversion Hun; reflexivity) | discriminate Hun]. }
  destruct (SeqRepoDataProxy.find_aliases sr ns a) as [[|r rows]|e0] eqn:Hf;
    cbn [SeqRepoDataProxy.fetchone].
  - split.
    + intro H. inversion H. right. exists qualified. split; [reflexivity|].
      right. exists ns, a. rewrite Hu. split; [reflexivity|]. right. left.
      rewrite Hf. auto.
    + intros [H | [q [Hq [Hun | [ns' [a' [Hun Hcase]]]]]]]; [discriminate H | |];
        inversion Hq; subst q; rewrite Hu in Hun; [discriminate Hun|].
      inversion Hun; subst ns' a'. rewrite Hf in Hcase.
      destruct Hcase as [H | [[_ He] | [r [rows [H _]]]]];
        [discriminate H | congruence | discriminate H].
  - destruct (SeqRepoDataProxy.fetch_seqinfo sr (SeqRepoDataProxy.seq_id r))
      as [info|e1] eqn:Hi.
    + destruct (SeqRepoDataProxy.fetch_aliases sr (SeqRepoDataProxy.seq_id r))
        as [aliases|e2] eqn:Hr.
      * split; [discriminate|].
        intros [H | [q [Hq [Hun | [ns' [a' [Hun Hcase]]]]]]]; [discriminate H | |];
          inversion Hq; subst q; rewrite Hu in Hun; [discriminate Hun|].
        inversion Hun; subst ns' a'. rewrite Hf in Hcase.
        destruct Hcase as [H | [[H _] | [r' [rows' [H Hfetch]]]]];
          [discriminate H | discriminate H |].
        inversion H; subst r' rows'. rewrite Hi, Hr in Hfetch.
        destruct Hfetch as [H' | [info' [_ H']]]; discriminate H'.
      * split.
        -- intro H. right. exists qualified. split; [reflexivity|].
           right. exists ns, a. rewrite Hu. split; [reflexivity|]. right. right.
           exists r, rows. rewrite Hf. split; [reflexivity|]. right.
           exists info. rewrite Hi, Hr. split; [reflexivity|].
           inversion H; reflexivity.
        -- intros [H | [q [Hq [Hun | [ns' [a' [Hun Hcase]]]]]]]; [discriminate H | |];
             inversion Hq; subst q; rewrite Hu in Hun; [discriminate Hun|].
           inversion Hun; subst ns' a'. rewrite Hf in Hcase.
           destruct Hcase as [H | [[H _] | [r' [rows' [H Hfetch]]]]];
             [discriminate H | discriminate H |].
           inversion H; subst r' rows'. rewrite Hi, Hr in Hfetch.
           destruct Hfetch as [H' | [info' [_ H']]];
             [discriminate H' | (inversion H'; reflexivity)].
    + split.
      * intro H. right. exists qualified. split; [reflexivity|].
        right. exists ns, a. rewrite Hu. split; [reflexivity|]. right. right.
        exists r, rows. rewrite Hf. split; [reflexivity|]. left.
        rewrite Hi. (inversion H; reflexivity).
      * intros [H | [q [Hq [Hun | [ns' [a' [Hun Hcase]]]]]]]; [discriminate H | |];
          inversion Hq; subst q; rewrite Hu in Hun; [discriminate Hun|].
        inversion Hun; subst ns' a'. rewrite Hf in Hcase.
        destruct Hcase as [H | [[H _] | [r' [rows' [H Hfetch]]]]];
          [discriminate H | discriminate H |].
        inversion H; subst r' rows'. rewrite Hi in Hfetch.
        destruct Hfetch as [H' | [info' [H' _]]];
          [(inversion H'; reflexivity) | discriminate H'].
  - split.
    + intro H. right. exists qualified. split; [reflexivity|].
      right. exists ns, a. rewrite Hu. split; [reflexivity|]. left.
      rewrite Hf. (inversion H; reflexivity).
    + intros [H | [q [Hq [Hun | [ns' [a' [Hun Hcase]]]]]]]; [discriminate H | |];
        inversion Hq; subst q; rewrite Hu in Hun; [discriminate Hun|].
      inversion Hun; subst ns' a'. rewrite Hf in Hcase.
      destruct Hcase as [H | [[H _] | [r [rows [H _]]]]];
        [(inversion H; reflexivity) | discriminate H | discriminate H].
Qed.

(** C9, as the code has it.  The adapters translate two backend conditions
    and nothing else: a missing alias row (local) or a 404 answer (REST)
    becomes [KeyError(identifier)], and [raise_for_status] turns the other
    answers from 400 to 599 into [HTTPError] with the status.  Every other
    failure of [get_metadata] and [get_sequence] is the exception of a
    collaborator, raised to the caller as it is: a transport exception of
    [requests.get], the decoding error of [resp.json()], the error of
    [coerce_namespace] or of unpacking the split identifier, an exception of
    the SeqRepo handle, or the [KeyError]/[TypeError] of reading ["aliases"]
    from a document of the wrong shape.  Each of these conditions makes the
    method raise exactly that exception, and the methods raise in no other
    case. *)
Theorem adapter_failures :
  forall (infer_namespace : string -> result (option string))
         (isoformat : string -> string)
         (sr : SeqRepoDataProxy.SeqRepo)
         (self : SeqRepoRESTDataProxy.self_t) (net : SeqRepoRESTDataProxy.network)
         (identifier : string) (start end_ : option Z) (e : exn),
    (fst (SeqRepoRESTDataProxy.get_metadata self identifier net) = Raise e
     <-> rest_metadata_failure self net identifier e)
    /\ (fst (SeqRepoRESTDataProxy.get_sequence self identifier start end_ net) = Raise e
        <-> rest_sequence_failure self net identifier e start end_)
    /\ (fst (SeqRepoDataProxy.get_metadata infer_namespace isoformat identifier sr)
        = Raise e
        <-> local_metadata_failure infer_namespace sr identifier e)
    /\ (fst (SeqRepoDataProxy.get_sequence infer_namespace isoformat identifier
               start end_ sr) = Raise e
        <-> local_sequence_failure sr identifier e start end_).
Proof.
  intros infer_namespace isoformat sr self net identifier start end_ e.
  split; [|split; [|split]].
  - rewrite rest_get_metadata_outcome. cbn [fst].
    apply metadata_outcome_raises.
  - rewrite rest_get_sequence_outcome. cbn [fst].
    apply sequence_outcome_raises.
  - rewrite (proj1 (local_get_metadata_raw infer_namespace isoformat sr identifier)).
    apply local_metadata_raises.
  - unfold local_sequence_failure. split; intro H; exact H.
Qed.

Lemma adapter_failures_witness :
  fst (SeqRepoRESTDataProxy.get_metadata localhost "NM_000551.3"
         (answering not_found_response))
  = Raise (KeyError "NM_000551.3").
Proof.
  apply (proj2 (proj1 (adapter_failures (fun _ => Ok None) (fun s => s) empty_seqrepo
                         localhost (answering not_found_response) "NM_000551.3"
                         None None (KeyError "NM_000551.3")))).
  right. exists not_found_response. split; [reflexivity|].
  left. left. split; reflexivity.
Defined.
